(** * UptimeRobot dashboard (app.py): fetch, index and reshape pipeline

    A shallow embedding of [app.py].  The values the script manipulates are
    the Python objects that [response.json()] produces, so the data model is
    a JSON value type; Python dictionaries are finite maps, and the places
    where the interpreter raises are explicit in the [outcome] type. *)

From Stdlib Require Import ZArith Lia Ascii String DecimalString.
From stdpp Require Import gmap strings list fin_maps.

#[local] Set Warnings "-register-all".
#[local] Open Scope Z_scope.

(** ** Python values *)

(** What [json.loads] builds: [None], [bool], [int], [str], [list], [dict].
    The numeric fields of the provider (status codes, epoch seconds,
    milliseconds) are integers, so numbers are [Z].  A [float] is not
    represented: no statement below covers a field sent with a fraction or
    an exponent. *)
Inductive json : Type :=
  | JNull
  | JBool (b : bool)
  | JNum (n : Z)
  | JStr (s : string)
  | JArr (l : list json)
  | JObj (o : gmap string json).

(** A monitor record, a log entry, a response-time entry: a [dict] with
    string keys. *)
Abbreviation record := (gmap string json).

(** The exceptions named in the statements below.  A time that
    [datetime] or pandas refuses to convert is not among them: what is
    raised then depends on the value, the platform and the release, and
    such a conversion ends in [Unmodelled]. *)
Inductive exn : Type :=
  | KeyError (key : string)
  | TypeError
  | AttributeError
  | JSONDecodeError.

(** Result of running a fragment of the script.  [Stop] is [st.stop()].
    [Unmodelled] marks the inputs for which the behaviour of a library is
    not described here (shapes that pandas treats in ways of its own,
    times outside the range in which every platform and release agrees);
    nothing is concluded from it. *)
Inductive outcome (A : Type) : Type :=
  | Return (a : A)
  | Raise (e : exn)
  | Stop
  | Unmodelled.
Arguments Return {A} a.
Arguments Raise {A} e.
Arguments Stop {A}.
Arguments Unmodelled {A}.

#[global] Instance outcome_ret : MRet outcome := @Return.

#[global] Instance outcome_bind : MBind outcome := fun A B k x =>
  match x with
  | Return a => k a
  | Raise e => Raise e
  | Stop => Stop
  | Unmodelled => Unmodelled
  end.

(** [for x in xs: ...] collecting one result per element, stopping at the
    first element whose body does not return. *)
Fixpoint for_each {A B : Type} (body : A -> outcome B) (xs : list A) : outcome (list B) :=
  match xs with
  | [] => Return []
  | x :: rest =>
      y ← body x;
      ys ← for_each body rest;
      Return (y :: ys)
  end.

(** Truth value of an object in a condition ([if not monitors], [and]). *)
Definition truthy (v : json) : bool :=
  match v with
  | JNull => false
  | JBool b => b
  | JNum n => negb (n =? 0)
  | JStr s => negb (String.eqb s "")
  | JArr l => match l with [] => false | _ => true end
  | JObj o => negb (bool_decide (o = ∅))
  end.

(** [v[key]] for a string key. *)
Definition subscript (v : json) (key : string) : outcome json :=
  match v with
  | JObj o => match o !! key with Some x => Return x | None => Raise (KeyError key) end
  | _ => Raise TypeError
  end.

(** [d[key]] on a value known to be a dict. *)
Definition getitem (d : record) (key : string) : outcome json :=
  match d !! key with Some x => Return x | None => Raise (KeyError key) end.

(** [v.get(key, dflt)]: only a dict has the method. *)
Definition get_method (v : json) (key : string) (dflt : json) : outcome json :=
  match v with
  | JObj o => Return (default dflt (o !! key))
  | _ => Raise AttributeError
  end.

(** [v == s] for a string literal [s]. *)
Definition eq_str (v : json) (s : string) : bool :=
  match v with
  | JStr s' => String.eqb s' s
  | _ => false
  end.

(** Keys of a dict with non-string keys ([STATUS_MAP], the monitor index).
    Python identifies [True] with [1] and [False] with [0] as keys; lists
    and dicts are unhashable. *)
Inductive pykey : Type :=
  | KNone
  | KInt (n : Z)
  | KStr (s : string).

#[global] Instance pykey_eq_dec : EqDecision pykey.
Proof. solve_decision. Defined.

#[global] Instance pykey_countable : Countable pykey.
Proof.
  refine (inj_countable'
    (fun k => match k with
              | KNone => inl tt
              | KInt n => inr (inl n)
              | KStr s => inr (inr s)
              end)
    (fun x => match x with
              | inl _ => KNone
              | inr (inl n) => KInt n
              | inr (inr s) => KStr s
              end) _).
  intros []; reflexivity.
Defined.

Definition hash_key (v : json) : outcome pykey :=
  match v with
  | JNull => Return KNone
  | JBool b => Return (KInt (if b then 1 else 0))
  | JNum n => Return (KInt n)
  | JStr s => Return (KStr s)
  | JArr _ | JObj _ => Raise TypeError
  end.

(** [d.get(k, dflt)] on a dict keyed by arbitrary hashable objects. *)
Definition dict_get {V : Type} (d : gmap pykey V) (k : json) (dflt : V) : outcome V :=
  k' ← hash_key k;
  Return (default dflt (d !! k')).

(** [s.split(sep)] for a one-character separator: every occurrence of the
    separator cuts, so the result has one more segment than there are
    separators and is never empty. *)
Fixpoint py_split (sep : ascii) (s : string) : list string :=
  match s with
  | EmptyString => [EmptyString]
  | String c rest =>
      if Ascii.eqb c sep then EmptyString :: py_split sep rest
      else match py_split sep rest with
           | seg :: segs => String c seg :: segs
           | [] => [String c EmptyString]
           end
  end.

(** ** The script *)

(** [STATUS_MAP], lines 31-37. *)
Definition STATUS_MAP : gmap pykey (string * string) :=
  <[KInt 0 := ("Paused", "⏸️")]>
  (<[KInt 1 := ("Not Checked Yet", "❔")]>
  (<[KInt 2 := ("Up", "✅")]>
  (<[KInt 8 := ("Seems Down", "⚠️")]>
  (<[KInt 9 := ("Down", "🔥")]> ∅)))).

(** Line 108: [status_text, status_icon = STATUS_MAP.get(monitor['status'], ...)]. *)
Definition monitor_status (monitor : record) : outcome (string * string) :=
  code ← getitem monitor "status";
  dict_get STATUS_MAP code ("Unknown", "❓").

(** Line 145: [log_type, log_icon = STATUS_MAP.get(log['type'], ...)]. *)
Definition log_status (log : json) : outcome (string * string) :=
  code ← subscript log "type";
  dict_get STATUS_MAP code ("Event", "ℹ️").

(** Line 111: [monitor.get('custom_uptime_ratio', '0-0').split('-')]. *)
Definition uptime_ratios (monitor : record) : outcome (list string) :=
  match default (JStr "0-0") (monitor !! "custom_uptime_ratio") with
  | JStr s => Return (py_split "-" s)
  | _ => Raise AttributeError
  end.

(** Line 112. *)
Definition uptime_7_day (uptime_ratios : list string) : string :=
  if (0 <? length uptime_ratios)%nat then nth 0 uptime_ratios "" else "N/A".

(** Line 113. *)
Definition uptime_30_day (uptime_ratios : list string) : string :=
  if (1 <? length uptime_ratios)%nat then nth 1 uptime_ratios "" else "N/A".

(** Lines 111-113 together: the pair shown by the two uptime metrics. *)
Definition uptime_kpis (monitor : record) : outcome (string * string) :=
  ratios ← uptime_ratios monitor;
  Return (uptime_7_day ratios, uptime_30_day ratios).

(** ** Calendar time *)

(** A calendar date and time of day, as held by [datetime.datetime] and by
    a pandas [Timestamp] (whole seconds). *)
Record datetime : Type := DateTime {
  year : Z; month : Z; day : Z; hour : Z; minute : Z; second : Z
}.

(** Proleptic Gregorian date of a day count relative to 1970-01-01, by
    400-year eras of 146097 days with the year starting on 1 March. *)
Definition civil_from_days (days : Z) : Z * Z * Z :=
  let z := days + 719468 in
  let era := z / 146097 in
  let doe := z - era * 146097 in
  let yoe := (doe - doe / 1460 + doe / 36524 - doe / 146096) / 365 in
  let doy := doe - (365 * yoe + yoe / 4 - yoe / 100) in
  let mp := (5 * doy + 2) / 153 in
  let d := doy - (153 * mp + 2) / 5 + 1 in
  let m := if mp <? 10 then mp + 3 else mp - 9 in
  let y := yoe + era * 400 + (if m <=? 2 then 1 else 0) in
  (y, m, d).

(** Calendar fields of a count of seconds since 1970-01-01 00:00:00. *)
Definition datetime_of_seconds (t : Z) : datetime :=
  let '(y, m, d) := civil_from_days (t / 86400) in
  let s := t mod 86400 in
  DateTime y m d (s / 3600) (s mod 3600 / 60) (s mod 60).

(** Local calendar time of the instant [t].  [utcoffset t] is the offset
    of the local zone from UTC, in seconds, at the instant [t]. *)
Definition localtime (utcoffset : Z -> Z) (t : Z) : datetime :=
  datetime_of_seconds (t + utcoffset t).

Definition year_in_range (d : datetime) : bool :=
  (1 <=? year d) && (year d <=? 9999).

(** The instants that [datetime.fromtimestamp] converts on a POSIX
    platform.  Besides the local time of [t] itself, CPython converts the
    local time one day earlier, to find out whether [t] falls in a
    repeated hour, and, when the offset went down during that day, the
    local time at the distance of the change as well; each of them must
    have its year in 1..9999. *)
Definition fromtimestamp_converts (utcoffset : Z -> Z) (t : Z) : bool :=
  let transition := utcoffset t - utcoffset (t - 86400) in
  year_in_range (localtime utcoffset t)
  && year_in_range (localtime utcoffset (t - 86400))
  && (if transition <? 0 then year_in_range (localtime utcoffset (t + transition))
      else true).

(** [datetime.fromtimestamp(x)] for an integer [x] ([True] and [False]
    are the integers 1 and 0): the local time.  Outside the instants
    above the call does not return; what it raises ([ValueError],
    [OverflowError] or [OSError]) depends on the value and the platform. *)
Definition fromtimestamp (utcoffset : Z -> Z) (x : json) : outcome datetime :=
  match x with
  | JNum t =>
      if fromtimestamp_converts utcoffset t then Return (localtime utcoffset t)
      else Unmodelled
  | JBool b =>
      let t := if b then 1 else 0 in
      if fromtimestamp_converts utcoffset t then Return (localtime utcoffset t)
      else Unmodelled
  | _ => Raise TypeError
  end.

Definition digit (n : Z) : ascii := ascii_of_nat (48 + Z.to_nat (n mod 10)).

(** [%m], [%d], [%H], [%M], [%S]: two digits. *)
Definition pad2 (n : Z) : string :=
  String (digit (n / 10)) (String (digit n) "").

(** [%Y] for a year of four digits. *)
Definition pad4 (n : Z) : string :=
  String (digit (n / 1000)) (String (digit (n / 100)) (pad2 n)).

(** [d.strftime('%Y-%m-%d %H:%M:%S')] for the years 1000..9999.  How a
    year below 1000 is written ([0999] or [999]) depends on the C library
    and the release of Python, so it is left out. *)
Definition strftime (d : datetime) : outcome string :=
  if (1000 <=? year d) && (year d <=? 9999) then
    Return (pad4 (year d) +:+ "-" +:+ pad2 (month d) +:+ "-" +:+ pad2 (day d) +:+ " "
            +:+ pad2 (hour d) +:+ ":" +:+ pad2 (minute d) +:+ ":" +:+ pad2 (second d))
  else Unmodelled.

(** The seconds that a [Timestamp] holds at nanosecond resolution in 64
    bits: within them every release of pandas converts to the same time;
    beyond them the releases differ. *)
Definition timestamp_in_bounds (t : Z) : bool :=
  (-9223372036 <=? t) && (t <=? 9223372036).

(** ** Streamlit and pandas objects *)

(** What [requests] raises inside the [try] block; all are
    [RequestException]s. *)
Inductive transport_failure : Type :=
  | ConnectionError
  | Timeout
  | TooManyRedirects.

Inductive request_exception : Type :=
  | Transport (f : transport_failure)
  | HTTPError (status_code : Z)
  | InvalidJSON.

(** An f-string: literal text and interpolated objects. *)
Inductive fragment : Type :=
  | Text (s : string)
  | Str (v : json)
  | StrExc (e : request_exception).

Abbreviation message := (list fragment).

(** A cell of a data frame. [NaN] is a missing value, [NaT] a missing
    time. *)
Inductive cell : Type :=
  | Obj (v : json)
  | PdTimestamp (d : datetime)
  | NaT
  | NaN.

(** A data frame: the rows in order, each a map from column label to
    cell, the set of column labels, and the index when a column has been
    made the index (a fresh frame is indexed by position). *)
Record DataFrame : Type := Frame {
  df_index : option (string * list cell);
  df_columns : gset string;
  df_rows : list (gmap string cell)
}.

(** One dict appended to [processed_logs], lines 146-150. *)
Record log_row : Type := LogRow {
  Event : string;
  Timestamp : string;
  Details : json
}.

(** The calls on [st] that the script makes. *)
Inductive st_call : Type :=
  | st_set_page_config
  | st_error (msg : message)
  | st_warning (msg : message)
  | st_info (msg : message)
  | st_title (msg : message)
  | st_header (msg : message)
  | st_markdown (msg : message)
  | st_metric (label : string) (value : message)
  | st_divider
  | st_subheader (msg : message)
  | st_line_chart (df : DataFrame)
  | st_dataframe (df_logs : list log_row)
  | st_json (v : json).

(** A fragment of the script that draws: the calls made, in order, and
    how the fragment ended. *)
Record ui (A : Type) : Type := UI { calls : list st_call; result : outcome A }.
Arguments UI {A} calls result.
Arguments calls {A} u.
Arguments result {A} u.

#[global] Instance ui_ret : MRet ui := fun A a => UI [] (Return a).

#[global] Instance ui_bind : MBind ui := fun A B k x =>
  match result x with
  | Return a => UI (calls x ++ calls (k a)) (result (k a))
  | Raise e => UI (calls x) (Raise e)
  | Stop => UI (calls x) Stop
  | Unmodelled => UI (calls x) Unmodelled
  end.

Definition emit (c : st_call) : ui unit := UI [c] (Return tt).

Definition lift {A : Type} (o : outcome A) : ui A := UI [] o.

(** [st.stop()]. *)
Definition st_stop {A : Type} : ui A := UI [] Stop.

(** ** The fetcher, lines 15 and 39-67 *)

Definition API_URL : string := "https://api.uptimerobot.com/v2/getMonitors".

Record request : Type := Request { url : string; data : list (string * json) }.

(** What [requests.post] does with a request: it raises, or it returns a
    response with a status code and a body, which is a JSON text or not. *)
Inductive post_result : Type :=
  | PostRaised (f : transport_failure)
  | Responded (status_code : Z) (body : option json).

(** Lines 44-51. *)
Definition payload (api_key : string) : list (string * json) :=
  [ ("api_key", JStr api_key);
    ("format", JStr "json");
    ("response_times", JNum 1);
    ("custom_uptime_ratios", JNum 1);
    ("logs", JNum 1);
    ("logs_limit", JNum 50) ].

(** [response.raise_for_status()]: raises [HTTPError] for the client and
    server error statuses, 400 to 599. *)
Definition raise_for_status (status_code : Z) : option request_exception :=
  if (400 <=? status_code) && (status_code <? 600)
  then Some (HTTPError status_code) else None.

(** Lines 65-67: the [except] clause. *)
Definition request_failed (e : request_exception) : ui json :=
  emit (st_error [Text "HTTP Request failed: "; StrExc e]);;
  mret JNull.

(** [requests.post(API_URL, data=payload)] against a network that has
    already carried the requests [sent]: the request goes out and
    [server] decides what comes back. *)
Definition requests_post (server : nat -> request -> post_result)
    (sent : list request) (req : request) : list request * post_result :=
  (sent ++ [req], server (length sent) req).

(** The body of [fetch_uptimerobot_data], without its cache.
    [json_errors_caught] tells whether the installed [requests] raises
    its own [JSONDecodeError], a [RequestException] (releases from 2.27
    on), for a body that is not JSON, or the standard library's, which
    the [except] clause does not catch. *)
Definition fetch_uptimerobot_data_body (json_errors_caught : bool)
    (server : nat -> request -> post_result) (api_key : string)
    (sent : list request) : list request * ui json :=
  let '(sent', response) := requests_post server sent (Request API_URL (payload api_key)) in
  (sent',
   match response with
   | PostRaised f => request_failed (Transport f)
   | Responded status_code body =>
       match raise_for_status status_code with
       | Some e => request_failed e
       | None =>
           match body with
           | None =>
               if json_errors_caught then request_failed InvalidJSON
               else lift (Raise JSONDecodeError)
           | Some data =>
               stat ← lift (get_method data "stat" JNull);
               if eq_str stat "ok"
               then lift (get_method data "monitors" (JArr []))
               else
                 err ← lift (get_method data "error" (JStr "Unknown error"));
                 emit (st_error [Text "API Error: "; Str err]);;
                 mret JNull
           end
       end
   end).

(** ** The index, lines 69-78 *)

(** The elements a [for] clause draws from an object.  A dict yields its
    keys, a string its characters; the other objects are not iterable. *)
Definition iterate (v : json) : outcome (list json) :=
  match v with
  | JArr l => Return l
  | JObj o => Return (JStr <$> (map_to_list o).*1)
  | JStr s => Return ((fun c => JStr (String c "")) <$> list_ascii_of_string s)
  | JNull | JBool _ | JNum _ => Raise TypeError
  end.

(** One step of the comprehension of line 77: the key of [m]. *)
Definition friendly_name_key (m : json) : outcome pykey :=
  name ← subscript m "friendly_name";
  hash_key name.

Definition index_entry (m : json) : outcome (pykey * json) :=
  k ← friendly_name_key m;
  Return (k, m).

(** Storing the pairs in order: a later pair replaces an earlier one
    with the same key. *)
Definition store_all (entries : list (pykey * json)) : gmap pykey json :=
  foldl (fun d e => <[e.1 := e.2]> d) ∅ entries.

Definition process_monitor_data (monitors : json) : outcome (gmap pykey json) :=
  if negb (truthy monitors) then Return ∅
  else
    ms ← iterate monitors;
    entries ← for_each index_entry ms;
    Return (store_all entries).

(** ** The response-time chart, lines 122-135 *)

(** [pd.DataFrame(rt_data)] for a list of dicts: one row per dict, in
    order; the columns are the keys that occur.  Other shapes of
    [rt_data] are outside this description. *)
Definition as_dict (v : json) : outcome record :=
  match v with
  | JObj o => Return o
  | _ => Unmodelled
  end.

Definition frame_of_dicts (dicts : list record) : DataFrame :=
  Frame None (⋃ ((fun d : record => dom d) <$> dicts))
        ((fun d : record => Obj <$> d) <$> dicts).

Definition pd_DataFrame (rt_data : json) : outcome DataFrame :=
  match rt_data with
  | JArr l =>
      dicts ← for_each as_dict l;
      Return (frame_of_dicts dicts)
  | _ => Unmodelled
  end.

(** [df[label]]: the column, with [NaN] where a row has no such key. *)
Definition df_getitem (df : DataFrame) (label : string) : outcome (list cell) :=
  if bool_decide (label ∈ df_columns df)
  then Return ((fun row => default NaN (row !! label)) <$> df_rows df)
  else Raise (KeyError label).

(** [pd.to_datetime(column, unit='s')], cell by cell: an integer count
    of seconds within the bounds becomes the calendar time it denotes
    (UTC), a missing value becomes [NaT].  Beyond the bounds the result
    depends on the release of pandas (an error, a time at a coarser
    resolution, or [NaT]). *)
Definition to_datetime_cell (c : cell) : outcome cell :=
  match c with
  | Obj (JNum t) =>
      if timestamp_in_bounds t then Return (PdTimestamp (datetime_of_seconds t))
      else Unmodelled
  | Obj JNull | NaN | NaT => Return NaT
  | PdTimestamp d => Return (PdTimestamp d)
  | Obj _ => Unmodelled
  end.

Definition pd_to_datetime (column : list cell) : outcome (list cell) :=
  for_each to_datetime_cell column.

(** [df[label] = column], for a column with one cell per row. *)
Definition df_setitem (df : DataFrame) (label : string) (column : list cell) : DataFrame :=
  Frame (df_index df) ({[label]} ∪ df_columns df)
        (zip_with (fun row c => <[label := c]> row) (df_rows df) column).

(** [df.rename(columns={old: new})]: a label that is not a column is
    ignored. *)
Definition df_rename (df : DataFrame) (old new : string) : outcome DataFrame :=
  if bool_decide (old ∈ df_columns df) then
    if bool_decide (new ∈ df_columns df) then Unmodelled
    else Return (Frame (df_index df) ({[new]} ∪ df_columns df ∖ {[old]})
           ((fun row => match row !! old with
                        | Some c => <[new := c]> (delete old row)
                        | None => row
                        end) <$> df_rows df))
  else Return df.

(** [df.set_index(label)]: the column becomes the index and leaves the
    columns; the rows keep their order. *)
Definition df_set_index (df : DataFrame) (label : string) : outcome DataFrame :=
  column ← df_getitem df label;
  Return (Frame (Some (label, column)) (df_columns df ∖ {[label]})
                (delete label <$> df_rows df)).

(** Lines 128-131. *)
Definition df_rt (rt_data : json) : outcome DataFrame :=
  df ← pd_DataFrame rt_data;
  column ← df_getitem df "datetime";
  times ← pd_to_datetime column;
  df ← df_rename (df_setitem df "datetime" times) "value" "Response Time (ms)";
  df_set_index df "datetime".

(** Lines 123-135. *)
Definition response_time_section (monitor : record) : ui unit :=
  emit (st_subheader [Text "Recent Response Times (ms)"]);;
  match monitor !! "response_times" with
  | Some rt_data =>
      if truthy rt_data then
        df ← lift (df_rt rt_data);
        emit (st_line_chart df)
      else emit (st_info [Text "No response time data available for this monitor."])
  | None => emit (st_info [Text "No response time data available for this monitor."])
  end.

(** ** The event log, lines 137-155 *)

(** Line 149: [log.get('reason', {}).get('detail', 'N/A')]. *)
Definition log_details (log : json) : outcome json :=
  reason ← get_method log "reason" (JObj ∅);
  get_method reason "detail" (JStr "N/A").

(** Lines 145-150: the row built from one log entry. *)
Definition processed_log (utcoffset : Z -> Z) (log : json) : outcome log_row :=
  status ← log_status log;
  when ← subscript log "datetime";
  d ← fromtimestamp utcoffset when;
  text ← strftime d;
  details ← log_details log;
  Return (LogRow (status.2 +:+ " " +:+ status.1) text details).

(** Lines 143-150: the loop. *)
Definition processed_logs (utcoffset : Z -> Z) (log_data : json) : outcome (list log_row) :=
  logs ← iterate log_data;
  for_each (processed_log utcoffset) logs.

(** Lines 138-155. *)
Definition events_section (utcoffset : Z -> Z) (monitor : record) : ui unit :=
  emit (st_subheader [Text "Recent Events"]);;
  match monitor !! "logs" with
  | Some log_data =>
      if truthy log_data then
        df_logs ← lift (processed_logs utcoffset log_data);
        emit (st_dataframe df_logs)
      else emit (st_info [Text "No logs available for this monitor."])
  | None => emit (st_info [Text "No logs available for this monitor."])
  end.

(** Lines 101-159: the page of the selected monitor. *)
Definition render_monitor (utcoffset : Z -> Z) (monitor : record) : ui unit :=
  name ← lift (getitem monitor "friendly_name");
  emit (st_header [Text "Monitor: "; Str name]);;
  address ← lift (getitem monitor "url");
  emit (st_markdown [Text "**URL:** `"; Str address; Text "`"]);;
  status ← lift (monitor_status monitor);
  uptime ← lift (uptime_kpis monitor);
  emit (st_metric "Current Status" [Text status.2; Text " "; Text status.1]);;
  emit (st_metric "7-Day Uptime" [Text uptime.1; Text "%"]);;
  emit (st_metric "30-Day Uptime" [Text uptime.2; Text "%"]);;
  emit st_divider;;
  response_time_section monitor;;
  events_section utcoffset monitor;;
  emit (st_json (JObj monitor)).

(** ** The cache, line 39, and the top of the script, lines 8-90 *)

(** Line 39: [@st.cache_data(ttl=300)]. *)
Definition ttl : Z := 300.

(** Modelled from the spec: the decorator [st.cache_data] belongs to
    Streamlit and is not part of the repository.  An entry keeps what a
    call of the function returned, with the messages it showed, and the
    time of the call; entries are keyed by the API key. *)
Record cache_entry : Type := CacheEntry {
  stored_at : Z;
  stored_calls : list st_call;
  stored_value : json
}.

(** The state outside the script run: the cache and the requests that
    have gone out on the network. *)
Record world : Type := World {
  cache : gmap string cache_entry;
  sent : list request
}.

(** Modelled from the spec: an entry answers the calls made before the
    time-to-live has elapsed since it was stored; once 300 seconds have
    elapsed it is stale. *)
Definition fresh (now : Z) (e : cache_entry) : bool :=
  now - stored_at e <? ttl.

(** Modelled from the spec: the decorated function.  A fresh entry
    answers the call without running the body; otherwise the body runs
    and, when it returns, its result replaces the entry.  A call whose
    body raises has no result and stores nothing. *)
Definition fetch_uptimerobot_data (json_errors_caught : bool)
    (server : nat -> request -> post_result) (now : Z) (api_key : string)
    (w : world) : world * ui json :=
  let run :=
    let '(sent', r) :=
      fetch_uptimerobot_data_body json_errors_caught server api_key (sent w) in
    match result r with
    | Return v => (World (<[api_key := CacheEntry now (calls r) v]> (cache w)) sent', r)
    | _ => (World (cache w) sent', r)
    end in
  match cache w !! api_key with
  | Some e =>
      if fresh now e then (w, UI (stored_calls e) (Return (stored_value e)))
      else run
  | None => run
  end.

(** Lines 8-90: configuration, the API key, the fetch, the index and the
    two early exits.  What is returned is [monitors_dict], for the rest of
    the script. *)
Definition script_top (json_errors_caught : bool)
    (server : nat -> request -> post_result) (environ : gmap string string)
    (now : Z) (w : world) : world * ui (gmap pykey json) :=
  let API_KEY := default "" (environ !! "UPTIMEROBOT_API_KEY") in
  if negb (truthy (JStr API_KEY)) then
    (w,
     emit st_set_page_config;;
     emit (st_error [Text "API Key not found. Please check your UPTIMEROBOT_API_KEY environment variable in Render."]);;
     st_stop)
  else
    let '(w', fetched) :=
      fetch_uptimerobot_data json_errors_caught server now API_KEY w in
    (w',
     emit st_set_page_config;;
     emit (st_title [Text "🤖 UptimeRobot Monitor Dashboard"]);;
     monitors_list ← fetched;
     monitors_dict ← lift (process_monitor_data monitors_list);
     if bool_decide (monitors_dict = ∅) then
       emit (st_warning [Text "No monitor data found or an error occurred."]);;
       st_stop
     else mret monitors_dict).

(** ** The page of the selected monitor, lines 101-102 *)

(** Truth value of a name in [if selected_monitor_name:]. *)
Definition key_truthy (k : pykey) : bool :=
  match k with
  | KNone => false
  | KInt n => negb (n =? 0)
  | KStr s => negb (String.eqb s "")
  end.

(** The key as a [KeyError] reports it. *)
Definition key_text (k : pykey) : string :=
  match k with
  | KNone => "None"
  | KInt n => NilEmpty.string_of_int (Z.to_int n)
  | KStr s => s
  end.

(** Lines 101-159.  [selected_monitor_name] is what the select box of
    lines 95-98 returned.  A value of the index that is not a dict fails
    at its first subscript, [monitor['friendly_name']]. *)
Definition dashboard_area (utcoffset : Z -> Z) (monitors_dict : gmap pykey json)
    (selected_monitor_name : pykey) : ui unit :=
  if key_truthy selected_monitor_name then
    match monitors_dict !! selected_monitor_name with
    | Some (JObj monitor) => render_monitor utcoffset monitor
    | Some _ => lift (Raise TypeError)
    | None => lift (Raise (KeyError (key_text selected_monitor_name)))
    end
  else mret tt.

(** ** Notions used to state the properties *)

(** Whether the character occurs in the string. *)
Fixpoint has_char (c : ascii) (s : string) : bool :=
  match s with
  | EmptyString => false
  | String a rest => Ascii.eqb a c || has_char c rest
  end.

(** [sep.join(segments)]. *)
Fixpoint py_join (sep : ascii) (segments : list string) : string :=
  match segments with
  | [] => ""
  | [seg] => seg
  | seg :: rest => seg +:+ String sep (py_join sep rest)
  end.

(** The status enumeration as the glossary gives it, with the fallback
    of the place of use for the other codes. *)
Definition status_enumeration (code : Z) (fallback : string * string) : string * string :=
  match code with
  | 0 => ("Paused", "⏸️")
  | 1 => ("Not Checked Yet", "❔")
  | 2 => ("Up", "✅")
  | 8 => ("Seems Down", "⚠️")
  | 9 => ("Down", "🔥")
  | _ => fallback
  end.

(** Day count of a proleptic Gregorian date, relative to 1970-01-01: the
    usual closed formula, against which [civil_from_days] is checked. *)
Definition days_from_civil (y m d : Z) : Z :=
  let y' := if m <=? 2 then y - 1 else y in
  let era := y' / 400 in
  let yoe := y' - era * 400 in
  let doy := (153 * (if 2 <? m then m - 3 else m + 9) + 2) / 5 + d - 1 in
  let doe := yoe * 365 + yoe / 4 - yoe / 100 + doy in
  era * 146097 + doe - 719468.

Definition seconds_of_datetime (d : datetime) : Z :=
  days_from_civil (year d) (month d) (day d) * 86400
  + hour d * 3600 + minute d * 60 + second d.

(** Reading a text of the form [YYYY-MM-DD HH:MM:SS] back. *)
Definition digit_value (c : ascii) : option Z :=
  let n := Z.of_nat (nat_of_ascii c) in
  if (48 <=? n) && (n <=? 57) then Some (n - 48) else None.

Fixpoint read_digits (acc : Z) (s : string) : option Z :=
  match s with
  | EmptyString => Some acc
  | String c rest =>
      match digit_value c with
      | Some v => read_digits (acc * 10 + v) rest
      | None => None
      end
  end.

Definition char_at (n : nat) (c : ascii) (s : string) : bool :=
  match String.get n s with
  | Some a => Ascii.eqb a c
  | None => false
  end.

Definition strptime (s : string) : option datetime :=
  if (String.length s =? 19)%nat && char_at 4 "-" s && char_at 7 "-" s
     && char_at 10 " " s && char_at 13 ":" s && char_at 16 ":" s
  then
    match read_digits 0 (substring 0 4 s), read_digits 0 (substring 5 2 s),
          read_digits 0 (substring 8 2 s), read_digits 0 (substring 11 2 s),
          read_digits 0 (substring 14 2 s), read_digits 0 (substring 17 2 s) with
    | Some y, Some m, Some d, Some hh, Some mm, Some ss => Some (DateTime y m d hh mm ss)
    | _, _, _, _, _, _ => None
    end
  else None.

(** The fields of a valid time of day on a calendar day. *)
Definition fields_in_range (d : datetime) : Prop :=
  1 <= month d <= 12 /\ 1 <= day d <= 31 /\
  0 <= hour d <= 23 /\ 0 <= minute d <= 59 /\ 0 <= second d <= 59.

(** The Gregorian rule for leap years and the lengths of the months. *)
Definition is_leap (y : Z) : bool :=
  (y mod 4 =? 0) && (negb (y mod 100 =? 0) || (y mod 400 =? 0)).

Definition days_in_month (y m : Z) : Z :=
  if m =? 2 then (if is_leap y then 29 else 28)
  else if (m =? 4) || (m =? 6) || (m =? 9) || (m =? 11) then 30
  else 31.

(** A date that exists in the calendar, with a time of day.  On such
    dates [seconds_of_datetime] is one-to-one, so a count of seconds names
    exactly one of them. *)
Definition valid_datetime (d : datetime) : Prop :=
  1 <= month d <= 12 /\ 1 <= day d <= days_in_month (year d) (month d) /\
  0 <= hour d <= 23 /\ 0 <= minute d <= 59 /\ 0 <= second d <= 59.

(** A log entry as the provider sends it: a dict with an integer [type],
    an integer [datetime] whose local year has four digits, and either no
    [reason] or a dict as [reason]. *)
Definition well_formed_log (utcoffset : Z -> Z) (entry : record) (code t : Z) : Prop :=
  entry !! "type" = Some (JNum code) /\
  entry !! "datetime" = Some (JNum t) /\
  1000 <= year (datetime_of_seconds (t + utcoffset t)) <= 9999 /\
  (forall v, entry !! "reason" = Some v -> exists reason : record, v = JObj reason).

(** What the claim says of the row of a log entry.  The timestamp is a
    text of the form [YYYY-MM-DD HH:MM:SS] that reads as a date of the
    calendar and a time of day, and that date and time are [t] seconds
    after 1970-01-01 00:00:00 once the offset of the local zone is added:
    the text is the local time of the instant [t]. *)
Definition row_of_log (utcoffset : Z -> Z) (entry : record) (code t : Z)
    (row : log_row) : Prop :=
  Event row = (status_enumeration code ("Event", "ℹ️")).2 +:+ " "
              +:+ (status_enumeration code ("Event", "ℹ️")).1 /\
  (exists d : datetime,
     strptime (Timestamp row) = Some d /\ valid_datetime d /\
     seconds_of_datetime d = t + utcoffset t) /\
  Details row =
    match entry !! "reason" with
    | Some (JObj reason) => default (JStr "N/A") (reason !! "detail")
    | _ => JStr "N/A"
    end.




(** The record is a dict whose field [friendly_name] is the string [s]. *)
Definition has_friendly_name (m : json) (s : string) : Prop :=
  exists o : record, m = JObj o /\ o !! "friendly_name" = Some (JStr s).


(** Number of occurrences of a character in a string. *)
Fixpoint count_char (c : ascii) (s : string) : nat :=
  match s with
  | EmptyString => 0
  | String a rest => (if Ascii.eqb a c then 1 else 0) + count_char c rest
  end.

(** * Properties *)

(** ** Splitting *)

Section Split.
Variable sep : ascii.

Lemma py_split_nonempty (s : string) : py_split sep s <> [].
Proof.
  destruct s as [|c rest]; simpl; [discriminate|].
  destruct (Ascii.eqb c sep); [discriminate|].
  destruct (py_split sep rest); discriminate.
Qed.

(** A string without the separator is its own single segment. *)
Lemma py_split_no_sep (s : string) :
  has_char sep s = false -> py_split sep s = [s].
Proof.
  induction s as [|c rest IH]; simpl; [reflexivity|].
  intros H. apply orb_false_elim in H as [Hc Hrest].
  rewrite Hc, (IH Hrest). reflexivity.
Qed.

(** The first separator ends the first segment. *)
Lemma py_split_cut (a rest : string) :
  has_char sep a = false ->
  py_split sep (a +:+ String sep rest) = a :: py_split sep rest.
Proof.
  induction a as [|c a IH]; simpl; intros H.
  - rewrite Ascii.eqb_refl. reflexivity.
  - apply orb_false_elim in H as [Hc Ha].
    rewrite Hc, (IH Ha). reflexivity.
Qed.

(** Joining the segments gives the string back. *)
Lemma py_join_split (s : string) : py_join sep (py_split sep s) = s.
Proof.
  induction s as [|c rest IH]; simpl; [reflexivity|].
  destruct (Ascii.eqb_spec c sep) as [->|Hne].
  - pose proof (py_split_nonempty rest) as Hn.
    destruct (py_split sep rest) as [|seg segs]; [contradiction|].
    simpl in *. rewrite IH. reflexivity.
  - pose proof (py_split_nonempty rest) as Hn.
    destruct (py_split sep rest) as [|seg segs]; [contradiction|].
    destruct segs as [|seg' segs]; simpl in *; rewrite <- IH; reflexivity.
Qed.

(** No segment contains the separator. *)
Lemma py_split_segments (s : string) :
  Forall (fun seg => has_char sep seg = false) (py_split sep s).
Proof.
  induction s as [|c rest IH]; simpl.
  - constructor; [reflexivity|constructor].
  - destruct (Ascii.eqb c sep) eqn:Hc.
    + constructor; [reflexivity|exact IH].
    + destruct (py_split sep rest) as [|seg segs]; simpl.
      * constructor; [simpl; rewrite Hc; reflexivity|constructor].
      * inversion IH; subst. constructor; [simpl; rewrite Hc; assumption|assumption].
Qed.
End Split.

(** ** Uptime ratios *)

Lemma uptime_kpis_str (monitor : record) (s : string) :
  monitor !! "custom_uptime_ratio" = Some (JStr s) ->
  uptime_kpis monitor =
    Return (uptime_7_day (py_split "-" s), uptime_30_day (py_split "-" s)).
Proof. intros H. unfold uptime_kpis, uptime_ratios. rewrite H. reflexivity. Qed.

(** C3, as the code has it: a record without the [custom_uptime_ratio]
    field gives [("0", "0")], through the default ["0-0"]; a record whose
    field is the empty string gives [("", "N/A")], because the default
    replaces an absent field only and the empty string splits into one
    empty segment. *)
Theorem uptime_absent_or_empty (monitor : record) :
  (monitor !! "custom_uptime_ratio" = None ->
   uptime_ratios monitor = Return (py_split "-" "0-0") /\
   uptime_kpis monitor = Return ("0", "0")) /\
  (monitor !! "custom_uptime_ratio" = Some (JStr "") ->
   uptime_kpis monitor = Return ("", "N/A")).
Proof.
  split.
  - intros H. unfold uptime_kpis, uptime_ratios. rewrite H. split; reflexivity.
  - intros H. rewrite (uptime_kpis_str _ _ H). reflexivity.
Qed.

Lemma uptime_absent_or_empty_witness :
  uptime_kpis (∅ : record) = Return ("0", "0") /\
  uptime_kpis ({["custom_uptime_ratio" := JStr ""]} : record) = Return ("", "N/A").
Proof.
  split.
  - apply (proj1 (uptime_absent_or_empty ∅)). reflexivity.
  - apply (proj2 (uptime_absent_or_empty {["custom_uptime_ratio" := JStr ""]})).
    reflexivity.
Defined.

(** C3, as stated, fails: with the empty string in the field the pair is
    [("", "N/A")] and not [("0", "0")]. *)
Lemma uptime_empty_string_not_zero :
  uptime_kpis ({["custom_uptime_ratio" := JStr ""]} : record) = Return ("", "N/A") /\
  uptime_kpis ({["custom_uptime_ratio" := JStr ""]} : record) <> Return ("0", "0").
Proof. split; [reflexivity|discriminate]. Qed.

(** C6: the field is split on ["-"].  ["98.5-99.2"] gives
    [("98.5", "99.2")], and so does every string made of two segments;
    when the split gives fewer than two segments, that is, when the string
    has no ["-"], the 7-day value is the whole string and the 30-day value
    is the literal ["N/A"]. *)
Theorem uptime_split (monitor : record) (s : string) :
  monitor !! "custom_uptime_ratio" = Some (JStr s) ->
  (s = "98.5-99.2" -> uptime_kpis monitor = Return ("98.5", "99.2")) /\
  (forall a b : string,
     has_char "-" a = false -> has_char "-" b = false -> s = a +:+ String "-" b ->
     uptime_kpis monitor = Return (a, b)) /\
  ((length (py_split "-" s) < 2)%nat ->
   py_split "-" s = [s] /\ uptime_kpis monitor = Return (s, "N/A")).
Proof.
  intros H. rewrite (uptime_kpis_str _ _ H). split; [|split].
  - intros ->. reflexivity.
  - intros a b Ha Hb ->.
    rewrite (py_split_cut _ _ _ Ha), (py_split_no_sep _ _ Hb). reflexivity.
  - intros Hlen. pose proof (py_join_split "-" s) as Hj.
    pose proof (py_split_nonempty "-" s) as Hne.
    destruct (py_split "-" s) as [|seg [|seg' segs]]; simpl in *;
      [contradiction| |lia].
    subst. split; reflexivity.
Qed.

Lemma uptime_split_witness :
  py_split "-" "98.5" = ["98.5"%string] /\
  uptime_kpis ({["custom_uptime_ratio" := JStr "98.5"]} : record) = Return ("98.5", "N/A").
Proof.
  refine (proj2 (proj2 (uptime_split {["custom_uptime_ratio" := JStr "98.5"]} "98.5" _)) _).
  - reflexivity.
  - simpl. lia.
Defined.

(** C10: when the field has more than two segments, the first is the
    7-day value, the second the 30-day value, and what follows the second
    ["-"] is ignored. *)
Theorem uptime_extra_segments_ignored (monitor : record) (a b tail : string) :
  has_char "-" a = false -> has_char "-" b = false ->
  monitor !! "custom_uptime_ratio" = Some (JStr (a +:+ String "-" (b +:+ String "-" tail))) ->
  (2 < length (py_split "-" (a +:+ String "-" (b +:+ String "-" tail))))%nat /\
  uptime_kpis monitor = Return (a, b).
Proof.
  intros Ha Hb H. rewrite (uptime_kpis_str _ _ H).
  rewrite (py_split_cut _ _ _ Ha), (py_split_cut _ _ _ Hb).
  split; [|reflexivity].
  pose proof (py_split_nonempty "-" tail).
  destruct (py_split "-" tail); [contradiction|simpl; lia].
Qed.

Lemma uptime_extra_segments_ignored_witness :
  uptime_kpis ({["custom_uptime_ratio" := JStr "1-2-3"]} : record) = Return ("1", "2").
Proof.
  apply (uptime_extra_segments_ignored {["custom_uptime_ratio" := JStr "1-2-3"]} "1" "2" "3");
    reflexivity.
Defined.

(** ** Status translation *)

Lemma STATUS_MAP_other (code : Z) :
  code <> 0 -> code <> 1 -> code <> 2 -> code <> 8 -> code <> 9 ->
  STATUS_MAP !! KInt code = None.
Proof.
  intros. unfold STATUS_MAP.
  rewrite !lookup_insert_ne by congruence. apply lookup_empty.
Qed.

Lemma STATUS_MAP_get (code : Z) (dflt : string * string) :
  dict_get STATUS_MAP (JNum code) dflt = Return (status_enumeration code dflt).
Proof.
  unfold dict_get. simpl.
  destruct (decide (code = 0)) as [->|?]; [reflexivity|].
  destruct (decide (code = 1)) as [->|?]; [reflexivity|].
  destruct (decide (code = 2)) as [->|?]; [reflexivity|].
  destruct (decide (code = 8)) as [->|?]; [reflexivity|].
  destruct (decide (code = 9)) as [->|?]; [reflexivity|].
  rewrite STATUS_MAP_other by assumption. simpl.
  unfold status_enumeration.
  destruct code as [|p|p]; [congruence| |reflexivity].
  do 4 (destruct p as [p|p|]; try congruence; try reflexivity).
Qed.

(** C4: a status code is translated by lookup in the fixed table 0 Paused,
    1 Not Checked Yet, 2 Up, 8 Seems Down, 9 Down, so the result depends
    on the code alone; code 2 gives [("Up", "✅")]; a code outside the
    table gives [("Unknown", "❓")] for a monitor's status and
    [("Event", "ℹ️")] for a log entry's type. *)
Theorem status_translation (code : Z) (monitor log : record) :
  monitor !! "status" = Some (JNum code) ->
  log !! "type" = Some (JNum code) ->
  monitor_status monitor = Return (status_enumeration code ("Unknown", "❓")) /\
  log_status (JObj log) = Return (status_enumeration code ("Event", "ℹ️")) /\
  (code = 2 -> monitor_status monitor = Return ("Up", "✅")) /\
  (code ∉ [0; 1; 2; 8; 9] ->
     monitor_status monitor = Return ("Unknown", "❓") /\
     log_status (JObj log) = Return ("Event", "ℹ️")).
Proof.
  intros Hm Hl.
  assert (monitor_status monitor = dict_get STATUS_MAP (JNum code) ("Unknown", "❓")) as ->.
  { unfold monitor_status, getitem. rewrite Hm. reflexivity. }
  assert (log_status (JObj log) = dict_get STATUS_MAP (JNum code) ("Event", "ℹ️")) as ->.
  { unfold log_status, subscript. rewrite Hl. reflexivity. }
  rewrite !STATUS_MAP_get. split; [reflexivity|]. split; [reflexivity|]. split.
  - intros ->. reflexivity.
  - intros Hout.
    assert (code <> 0 /\ code <> 1 /\ code <> 2 /\ code <> 8 /\ code <> 9) as (?&?&?&?&?).
    { repeat split; intros ->; apply Hout; set_solver. }
    unfold status_enumeration.
    destruct code as [|p|p]; [congruence| |split; reflexivity].
    do 4 (destruct p as [p|p|]; try congruence; try (split; reflexivity)).
Qed.

Lemma status_translation_witness :
  monitor_status ({["status" := JNum 999]} : record) = Return ("Unknown", "❓") /\
  log_status (JObj {["type" := JNum 999]}) = Return ("Event", "ℹ️").
Proof.
  refine (proj2 (proj2 (proj2 (status_translation 999 {["status" := JNum 999]} {["type" := JNum 999]} _ _))) _).
  - reflexivity.
  - reflexivity.
  - set_unfold. lia.
Defined.

(** ** Loops *)

Lemma bind_Return {A B : Type} (a : A) (k : A -> outcome B) :
  (Return a ≫= k) = k a.
Proof. reflexivity. Qed.

Section ForEach.
Context {A B : Type} (body : A -> outcome B).

(** A loop whose body returns on every element returns, with one
    result per element, in order. *)
Lemma for_each_Return (xs : list A) (ys : list B) :
  Forall2 (fun x y => body x = Return y) xs ys -> for_each body xs = Return ys.
Proof.
  induction 1 as [|x y xs ys Hx _ IH]; simpl; [reflexivity|].
  rewrite Hx. simpl. rewrite IH. reflexivity.
Qed.

Lemma for_each_inv (xs : list A) (ys : list B) :
  for_each body xs = Return ys -> Forall2 (fun x y => body x = Return y) xs ys.
Proof.
  revert ys. induction xs as [|x xs IH]; simpl; intros ys H.
  - injection H as <-. constructor.
  - destruct (body x) as [y| | |] eqn:Hx; simpl in H; try discriminate.
    destruct (for_each body xs) as [ys'| | |] eqn:Hxs; simpl in H; try discriminate.
    injection H as <-. constructor; [assumption|]. apply IH. reflexivity.
Qed.

Lemma for_each_total (xs : list A) :
  Forall (fun x => exists y, body x = Return y) xs ->
  exists ys, for_each body xs = Return ys.
Proof.
  induction 1 as [|x xs [y Hy] _ [ys IH]]; simpl.
  - exists []. reflexivity.
  - exists (y :: ys). rewrite Hy. simpl. rewrite IH. reflexivity.
Qed.
End ForEach.

(** ** The index *)

Lemma store_all_snoc (entries : list (pykey * json)) (e : pykey * json) :
  store_all (entries ++ [e]) = <[e.1 := e.2]> (store_all entries).
Proof. unfold store_all. rewrite foldl_snoc. reflexivity. Qed.

(** What the index holds under a key: the value of the last pair with
    that key, and nothing when no pair has it. *)
Lemma store_all_lookup (entries : list (pykey * json)) (k : pykey) :
  match store_all entries !! k with
  | Some v =>
      exists n, entries !! n = Some (k, v) /\
        forall n' e', (n < n')%nat -> entries !! n' = Some e' -> e'.1 <> k
  | None => forall e, e ∈ entries -> e.1 <> k
  end.
Proof.
  induction entries as [|e entries IH] using rev_ind.
  - simpl. unfold store_all. simpl. rewrite lookup_empty. intros e He.
    apply not_elem_of_nil in He. contradiction.
  - rewrite store_all_snoc. destruct (decide (e.1 = k)) as [<-|Hne].
    + rewrite lookup_insert_eq. exists (length entries). split.
      * rewrite lookup_app_r by lia. rewrite Nat.sub_diag. destruct e; reflexivity.
      * intros n' e' Hlt Hn'. apply lookup_lt_Some in Hn'.
        rewrite length_app in Hn'. simpl in Hn'. lia.
    + rewrite lookup_insert_ne by assumption.
      destruct (store_all entries !! k) as [v|].
      * destruct IH as (n & Hn & Hlast). exists n. split.
        -- apply lookup_app_l_Some. assumption.
        -- intros n' e' Hlt Hn'.
           destruct (decide (n' < length entries)%nat) as [Hin|Hout].
           ++ rewrite lookup_app_l in Hn' by assumption. eauto.
           ++ rewrite lookup_app_r in Hn' by lia.
              destruct (n' - length entries)%nat; simpl in Hn'; [|discriminate].
              injection Hn' as <-. assumption.
      * intros e' He'. apply elem_of_app in He' as [He'|He'].
        -- apply IH. assumption.
        -- apply list_elem_of_singleton in He'. subst. assumption.
Qed.

(** The index never has more entries than there are pairs. *)
Lemma store_all_size_app (es1 es2 : list (pykey * json)) :
  (size (store_all (es1 ++ es2)) <= size (store_all es1) + length es2)%nat.
Proof.
  induction es2 as [|e es2 IH] using rev_ind.
  - rewrite app_nil_r. simpl. lia.
  - rewrite app_assoc, store_all_snoc, map_size_insert, length_app. simpl.
    destruct (store_all (es1 ++ es2) !! e.1); simpl; lia.
Qed.

Lemma store_all_size (entries : list (pykey * json)) :
  (size (store_all entries) <= length entries)%nat.
Proof.
  pose proof (store_all_size_app [] entries) as H.
  simpl in H. unfold store_all in H at 2. simpl in H.
  rewrite map_size_empty in H. exact H.
Qed.

Lemma store_all_is_Some (entries : list (pykey * json)) (e : pykey * json) :
  e ∈ entries -> is_Some (store_all entries !! e.1).
Proof.
  intros He. pose proof (store_all_lookup entries e.1) as H.
  destruct (store_all entries !! e.1) as [v|]; [eauto|].
  exfalso. exact (H e He eq_refl).
Qed.

(** On a list, the function is the comprehension of line 77. *)
Lemma process_monitor_data_list (monitors : list json) :
  process_monitor_data (JArr monitors) =
    (entries ← for_each index_entry monitors; Return (store_all entries)).
Proof. destruct monitors; reflexivity. Qed.

Lemma index_entries (monitors : list json) :
  Forall (fun m => exists k, friendly_name_key m = Return k) monitors ->
  exists entries,
    for_each index_entry monitors = Return entries /\
    Forall2 (fun m e => friendly_name_key m = Return e.1 /\ e.2 = m) monitors entries.
Proof.
  intros Hwf.
  destruct (for_each_total index_entry monitors) as [entries He].
  { eapply Forall_impl; [exact Hwf|]. intros m [k Hk].
    exists (k, m). unfold index_entry. rewrite Hk. reflexivity. }
  exists entries. split; [assumption|].
  apply for_each_inv in He. eapply Forall2_impl; [exact He|].
  intros m [k m'] Hm. unfold index_entry in Hm.
  destruct (friendly_name_key m) as [k'| | |]; simpl in Hm; try discriminate.
  injection Hm as <- <-. split; reflexivity.
Qed.

(** A record whose [friendly_name] is a string is indexed under that
    string. *)
Lemma has_friendly_name_key (m : json) (s : string) :
  has_friendly_name m s -> friendly_name_key m = Return (KStr s).
Proof.
  intros (o & -> & Ho). unfold friendly_name_key, subscript. rewrite Ho. reflexivity.
Qed.

(** C7: when every record of the input is a dict with a string under
    [friendly_name] and two records, at positions [i < j], have the same
    string [s] there, the index holds under [s] one record: the last record
    of the input whose [friendly_name] is [s], which stands at position [j]
    or later, so after the record at [i]; the [friendly_name] of every
    record is a key of the index; and the index has fewer entries than the
    input has records. *)
Theorem index_last_write_wins (monitors : list json) (i j : nat)
    (mi mj : json) (s : string) :
  Forall (fun m => exists s', has_friendly_name m s') monitors ->
  monitors !! i = Some mi -> monitors !! j = Some mj -> (i < j)%nat ->
  has_friendly_name mi s -> has_friendly_name mj s ->
  exists d : gmap pykey json,
    process_monitor_data (JArr monitors) = Return d /\
    (exists n m, (j <= n)%nat /\ monitors !! n = Some m /\
       has_friendly_name m s /\ d !! KStr s = Some m /\
       forall n' m', (n < n')%nat -> monitors !! n' = Some m' ->
         ~ has_friendly_name m' s) /\
    (forall m s', m ∈ monitors -> has_friendly_name m s' -> is_Some (d !! KStr s')) /\
    (size d < length monitors)%nat.
Proof.
  intros Hnamed Hi Hj Hlt Hsi Hsj.
  pose proof (has_friendly_name_key _ _ Hsi) as Hki.
  pose proof (has_friendly_name_key _ _ Hsj) as Hkj.
  assert (Forall (fun m => exists k, friendly_name_key m = Return k) monitors) as Hwf.
  { eapply Forall_impl; [exact Hnamed|]. intros m [s' Hs'].
    exists (KStr s'). apply has_friendly_name_key. exact Hs'. }
  destruct (index_entries monitors Hwf) as (entries & Hrun & Hrel).
  exists (store_all entries). rewrite process_monitor_data_list, Hrun.
  split; [reflexivity|].
  destruct (Forall2_lookup_l _ _ _ _ _ Hrel Hi) as ([ki vi] & Hei & Hki' & Hvi).
  destruct (Forall2_lookup_l _ _ _ _ _ Hrel Hj) as ([kj vj] & Hej & Hkj' & Hvj).
  simpl in *. subst vi vj.
  assert (ki = KStr s) as -> by congruence. assert (kj = KStr s) as -> by congruence.
  split; [|split].
  - pose proof (store_all_lookup entries (KStr s)) as Hlook.
    destruct (store_all entries !! KStr s) as [v|].
    + destruct Hlook as (n & Hn & Hlast).
      destruct (Forall2_lookup_r _ _ _ _ _ Hrel Hn) as (m & Hm & Hkm & Hvm).
      simpl in *. subst v. exists n, m.
      split; [|split; [assumption|split; [|split; [reflexivity|]]]].
      * destruct (decide (j <= n)%nat) as [|Hnj]; [assumption|].
        exfalso. apply (Hlast j (KStr s, mj)); [lia|assumption|reflexivity].
      * destruct (proj1 (Forall_lookup _ _) Hnamed n m Hm) as [s' Hs'].
        pose proof (has_friendly_name_key _ _ Hs') as Hk'.
        assert (s' = s) as -> by congruence. exact Hs'.
      * intros n' m' Hn' Hm' Hs'. apply has_friendly_name_key in Hs'.
        destruct (Forall2_lookup_l _ _ _ _ _ Hrel Hm') as (e' & He' & Hke' & _).
        apply (Hlast n' e' Hn' He'). congruence.
    + exfalso. apply (Hlook (KStr s, mj)); [|reflexivity].
      apply list_elem_of_lookup. eauto.
  - intros m s' Hm Hs'. apply has_friendly_name_key in Hs'.
    apply list_elem_of_lookup in Hm as [n Hn].
    destruct (Forall2_lookup_l _ _ _ _ _ Hrel Hn) as (e & He & Hke & _).
    assert (e.1 = KStr s') as <- by congruence.
    apply store_all_is_Some. apply list_elem_of_lookup. eauto.
  - rewrite (Forall2_length _ _ _ Hrel).
    assert (entries = (take j entries ++ [(KStr s, mj)]) ++ drop (S j) entries) as Hsplit.
    { rewrite <- app_assoc. symmetry. apply take_drop_middle. assumption. }
    assert (size (store_all entries) <=
            size (store_all (take j entries ++ [(KStr s, mj)])) +
            length (drop (S j) entries))%nat as Hsz.
    { rewrite Hsplit at 1. apply store_all_size_app. }
    rewrite store_all_snoc, map_size_insert in Hsz. simpl in Hsz.
    assert (is_Some (store_all (take j entries) !! KStr s)) as [v Hv].
    { apply (store_all_is_Some _ (KStr s, mi)). apply list_elem_of_lookup.
      exists i. rewrite lookup_take_lt by assumption. assumption. }
    rewrite Hv in Hsz. simpl in Hsz.
    pose proof (store_all_size (take j entries)) as Hsz'.
    apply lookup_lt_Some in Hej.
    rewrite length_drop in Hsz. rewrite length_take in Hsz'. lia.
Qed.

Lemma index_last_write_wins_witness :
  exists d : gmap pykey json,
    process_monitor_data
      (JArr [JObj {["friendly_name" := JStr "api"; "url" := JStr "https://a.example"]};
             JObj {["friendly_name" := JStr "api"; "url" := JStr "https://b.example"]}])
      = Return d /\
    d !! KStr "api" =
      Some (JObj {["friendly_name" := JStr "api"; "url" := JStr "https://b.example"]}) /\
    size d = 1%nat.
Proof.
  destruct (index_last_write_wins
    [JObj {["friendly_name" := JStr "api"; "url" := JStr "https://a.example"]};
     JObj {["friendly_name" := JStr "api"; "url" := JStr "https://b.example"]}]
    0 1
    (JObj {["friendly_name" := JStr "api"; "url" := JStr "https://a.example"]})
    (JObj {["friendly_name" := JStr "api"; "url" := JStr "https://b.example"]})
    "api") as (d & Hd & _).
  - constructor; [exists "api"; eexists; split; reflexivity|].
    constructor; [exists "api"; eexists; split; reflexivity|]. constructor.
  - reflexivity.
  - reflexivity.
  - lia.
  - eexists; split; reflexivity.
  - eexists; split; reflexivity.
  - exists d. split; [exact Hd|].
    vm_compute in Hd. injection Hd as <-. split; reflexivity.
Defined.

(** ** The top of the script *)

Lemma process_monitor_data_falsy (monitors : json) :
  truthy monitors = false -> process_monitor_data monitors = Return ∅.
Proof. intros H. unfold process_monitor_data. rewrite H. reflexivity. Qed.

(** C9: the index of the empty list is the empty mapping, and so is the
    index of [None]; and when the fetch returns and the index is empty,
    the script shows the warning as its last call and stops: it ends in
    [st.stop()], not in an exception. *)
Theorem zero_monitors_halt (json_errors_caught : bool)
    (server : nat -> request -> post_result) (environ : gmap string string)
    (now : Z) (w : world) (API_KEY : string) (monitors_list : json) :
  environ !! "UPTIMEROBOT_API_KEY" = Some API_KEY -> API_KEY <> "" ->
  result (fetch_uptimerobot_data json_errors_caught server now API_KEY w).2
    = Return monitors_list ->
  process_monitor_data monitors_list = Return ∅ ->
  process_monitor_data (JArr []) = Return ∅ /\
  process_monitor_data JNull = Return ∅ /\
  result (script_top json_errors_caught server environ now w).2 = Stop /\
  last (calls (script_top json_errors_caught server environ now w).2)
    = Some (st_warning [Text "No monitor data found or an error occurred."]).
Proof.
  intros Henv Hkey Hfetch Hindex.
  split; [reflexivity|]. split; [reflexivity|].
  unfold script_top. rewrite Henv. simpl.
  destruct (String.eqb_spec API_KEY "") as [|_]; [contradiction|]. simpl.
  destruct (fetch_uptimerobot_data json_errors_caught server now API_KEY w)
    as [w' fetched].
  simpl in *. unfold mbind, ui_bind. simpl. rewrite Hfetch. simpl.
  rewrite Hindex. simpl. rewrite bool_decide_eq_true_2 by reflexivity.
  split; [reflexivity|]. simpl calls.
  rewrite !app_comm_cons. apply last_snoc.
Qed.

Lemma zero_monitors_halt_witness :
  result (script_top true
            (fun _ _ => Responded 200 (Some (JObj {["stat" := JStr "ok"; "monitors" := JArr []]})))
            {["UPTIMEROBOT_API_KEY" := "u123-abc"]} 0 (World ∅ [])).2 = Stop /\
  last (calls (script_top true
            (fun _ _ => Responded 200 (Some (JObj {["stat" := JStr "ok"; "monitors" := JArr []]})))
            {["UPTIMEROBOT_API_KEY" := "u123-abc"]} 0 (World ∅ [])).2)
    = Some (st_warning [Text "No monitor data found or an error occurred."]).
Proof.
  refine (proj2 (proj2 (zero_monitors_halt true
    (fun _ _ => Responded 200 (Some (JObj {["stat" := JStr "ok"; "monitors" := JArr []]})))
    {["UPTIMEROBOT_API_KEY" := "u123-abc"]} 0 (World ∅ []) "u123-abc" (JArr []) _ _ _ _))).
  - reflexivity.
  - discriminate.
  - vm_compute. reflexivity.
  - reflexivity.
Defined.

(** ** The fetcher *)

(** Each call sends one request, with the fixed payload. *)
Lemma fetch_sends_one_request (json_errors_caught : bool)
    (server : nat -> request -> post_result) (api_key : string) (sent : list request) :
  (fetch_uptimerobot_data_body json_errors_caught server api_key sent).1
    = sent ++ [Request API_URL (payload api_key)].
Proof. reflexivity. Qed.

Lemma raise_for_status_None (status_code : Z) :
  ~ (400 <= status_code < 600) -> raise_for_status status_code = None.
Proof.
  intros H. unfold raise_for_status.
  destruct (Z.leb_spec 400 status_code), (Z.ltb_spec status_code 600);
    simpl; try reflexivity; lia.
Qed.

Lemma raise_for_status_Some (status_code : Z) :
  400 <= status_code < 600 -> raise_for_status status_code = Some (HTTPError status_code).
Proof.
  intros H. unfold raise_for_status.
  destruct (Z.leb_spec 400 status_code), (Z.ltb_spec status_code 600);
    simpl; try reflexivity; lia.
Qed.

(** C1, as the code has it.  When the response is not an HTTP error
    (status outside 400..599) and its JSON object has ["stat"] equal to
    ["ok"], the call returns the ["monitors"] field, or the empty list
    when the field is absent, and shows nothing.  When such a response
    has another ["stat"], or none, the call shows the API error and
    returns [None].  When the request fails in transport or the status
    is in 400..599, the call shows the request failure and returns
    [None].  In all these cases the call returns: nothing is raised. *)
Theorem fetch_outcomes (json_errors_caught : bool)
    (server : nat -> request -> post_result) (api_key : string) (sent : list request) :
  let response := server (length sent) (Request API_URL (payload api_key)) in
  let fetched := (fetch_uptimerobot_data_body json_errors_caught server api_key sent).2 in
  (forall (status_code : Z) (o : record),
     response = Responded status_code (Some (JObj o)) ->
     ~ (400 <= status_code < 600) ->
     o !! "stat" = Some (JStr "ok") ->
     fetched = UI [] (Return (default (JArr []) (o !! "monitors")))) /\
  (forall (status_code : Z) (o : record),
     response = Responded status_code (Some (JObj o)) ->
     ~ (400 <= status_code < 600) ->
     o !! "stat" <> Some (JStr "ok") ->
     fetched =
       UI [st_error [Text "API Error: ";
                     Str (default (JStr "Unknown error") (o !! "error"))]]
          (Return JNull)) /\
  (forall f : transport_failure,
     response = PostRaised f ->
     fetched =
       UI [st_error [Text "HTTP Request failed: "; StrExc (Transport f)]]
          (Return JNull)) /\
  (forall (status_code : Z) (body : option json),
     response = Responded status_code body ->
     400 <= status_code < 600 ->
     fetched =
       UI [st_error [Text "HTTP Request failed: "; StrExc (HTTPError status_code)]]
          (Return JNull)).
Proof.
  intros response fetched. subst fetched response.
  unfold fetch_uptimerobot_data_body, requests_post. simpl.
  repeat apply conj.
  - intros status_code o -> Hstatus Hstat.
    rewrite (raise_for_status_None _ Hstatus). simpl.
    unfold mbind, ui_bind. simpl. rewrite Hstat. reflexivity.
  - intros status_code o -> Hstatus Hstat.
    rewrite (raise_for_status_None _ Hstatus). simpl.
    unfold mbind, ui_bind. simpl.
    assert (eq_str (default JNull (o !! "stat")) "ok" = false) as ->.
    { destruct (o !! "stat") as [[| | |s| |]|]; simpl; try reflexivity.
      destruct (String.eqb_spec s "ok") as [->|]; [contradiction|reflexivity]. }
    reflexivity.
  - intros f ->. reflexivity.
  - intros status_code body -> Hstatus.
    rewrite (raise_for_status_Some _ Hstatus). reflexivity.
Qed.


Lemma fetch_outcomes_witness :
  (fetch_uptimerobot_data_body true (fun _ _ => Responded 404 None) "u123-abc" []).2 =
    UI [st_error [Text "HTTP Request failed: "; StrExc (HTTPError 404)]] (Return JNull).
Proof.
  refine (proj2 (proj2 (proj2
    (fetch_outcomes true (fun _ _ => Responded 404 None) "u123-abc" []))) 404 None _ _).
  - reflexivity.
  - lia.
Defined.

(** C1, as stated, fails for a status that is neither 2xx nor an error
    status: a response with status 300 whose JSON object says ["ok"] is
    returned as data, with no message, although the status is not 2xx. *)
Lemma fetch_status_300_returns_data :
  ~ (200 <= 300 < 300) /\
  (fetch_uptimerobot_data_body true
     (fun _ _ => Responded 300
        (Some (JObj {["stat" := JStr "ok"; "monitors" := JArr [JObj {["friendly_name" := JStr "api"]}]]})))
     "u123-abc" []).2
  = UI [] (Return (JArr [JObj {["friendly_name" := JStr "api"]}])) /\
  JArr [JObj {["friendly_name" := JStr "api"]}] <> JNull.
Proof. split; [lia|]. split; [vm_compute; reflexivity|discriminate]. Qed.

(** ** The cache *)

Lemma fetch_hit (json_errors_caught : bool) (server : nat -> request -> post_result)
    (now : Z) (api_key : string) (w : world) (e : cache_entry) :
  cache w !! api_key = Some e -> fresh now e = true ->
  fetch_uptimerobot_data json_errors_caught server now api_key w
    = (w, UI (stored_calls e) (Return (stored_value e))).
Proof. intros He Hf. unfold fetch_uptimerobot_data. rewrite He, Hf. reflexivity. Qed.

(** A call that is not answered by a fresh entry runs the body once: one
    request goes out, the result is the body's, and it is stored when the
    body returns. *)
Lemma fetch_miss (json_errors_caught : bool) (server : nat -> request -> post_result)
    (now : Z) (api_key : string) (w : world) :
  (forall e, cache w !! api_key = Some e -> fresh now e = false) ->
  let ran := fetch_uptimerobot_data_body json_errors_caught server api_key (sent w) in
  let called := fetch_uptimerobot_data json_errors_caught server now api_key w in
  called.2 = ran.2 /\
  sent called.1 = sent w ++ [Request API_URL (payload api_key)] /\
  match result ran.2 with
  | Return v => cache called.1 = <[api_key := CacheEntry now (calls ran.2) v]> (cache w)
  | _ => cache called.1 = cache w
  end.
Proof.
  intros Hstale ran called. subst ran called. unfold fetch_uptimerobot_data.
  assert (forall X (hit : cache_entry -> X) (run : X),
    match cache w !! api_key with
    | Some e => if fresh now e then hit e else run
    | None => run
    end = run) as Hrun.
  { intros X hit run. destruct (cache w !! api_key) as [e|]; [|reflexivity].
    rewrite (Hstale e eq_refl). reflexivity. }
  rewrite Hrun.
  pose proof (fetch_sends_one_request json_errors_caught server api_key (sent w)) as Hsent.
  destruct (fetch_uptimerobot_data_body json_errors_caught server api_key (sent w))
    as [sent' r].
  simpl in *. subst sent'. destruct (result r); simpl; repeat split; reflexivity.
Qed.

(** Any call sends at most one request. *)
Lemma fetch_at_most_one_request (json_errors_caught : bool)
    (server : nat -> request -> post_result) (now : Z) (api_key : string) (w : world) :
  (length (sent (fetch_uptimerobot_data json_errors_caught server now api_key w).1)
     <= length (sent w) + 1)%nat.
Proof.
  destruct (cache w !! api_key) as [e|] eqn:He.
  - destruct (fresh now e) eqn:Hf.
    + rewrite (fetch_hit _ _ _ _ _ _ He Hf). simpl. lia.
    + destruct (fetch_miss json_errors_caught server now api_key w) as (_ & -> & _).
      { intros e' He'. congruence. }
      rewrite length_app. simpl. lia.
  - destruct (fetch_miss json_errors_caught server now api_key w) as (_ & -> & _).
    { intros e' He'. congruence. }
    rewrite length_app. simpl. lia.
Qed.

(** C2, as the cache works.  When a call with a key returns, a second
    call with that key less than 300 seconds later adds at most one request
    to those sent before the first call, and when the first call went to
    the network the second is answered from the cache: it sends nothing
    and gives the same result and messages.  For a key whose entry is 300
    seconds old or older, a call sends one new request, gives the result
    of the body, and, when the body returns, stores that result with the
    time of the call in place of the old entry.  A call that does not
    return, because it raises, stores nothing: it leaves the cache as it
    was. *)
Theorem cache_time_to_live (json_errors_caught : bool)
    (server : nat -> request -> post_result) (api_key : string) :
  (forall (w : world) (t1 t2 : Z) (v : json),
     let first := fetch_uptimerobot_data json_errors_caught server t1 api_key w in
     let second := fetch_uptimerobot_data json_errors_caught server t2 api_key first.1 in
     result first.2 = Return v ->
     t1 <= t2 < t1 + 300 ->
     (length (sent second.1) <= length (sent w) + 1)%nat /\
     (sent first.1 <> sent w ->
      sent second.1 = sent first.1 /\ second.2 = first.2 /\ second.1 = first.1)) /\
  (forall (w : world) (e : cache_entry) (now : Z),
     let called := fetch_uptimerobot_data json_errors_caught server now api_key w in
     cache w !! api_key = Some e ->
     stored_at e + 300 <= now ->
     sent called.1 = sent w ++ [Request API_URL (payload api_key)] /\
     called.2 = (fetch_uptimerobot_data_body json_errors_caught server api_key (sent w)).2 /\
     (forall v, result called.2 = Return v ->
        cache called.1 !! api_key = Some (CacheEntry now (calls called.2) v))) /\
  (forall (w : world) (now : Z),
     let called := fetch_uptimerobot_data json_errors_caught server now api_key w in
     (forall v, result called.2 <> Return v) ->
     cache called.1 = cache w).
Proof.
  split; [|split].
  - intros w t1 t2 v first second Hret Hwin.
    destruct (cache w !! api_key) as [e|] eqn:He;
      [destruct (fresh t1 e) eqn:Hf|].
    + (* the first call is a hit *)
      assert (first = (w, UI (stored_calls e) (Return (stored_value e)))) as Hfirst
        by (apply fetch_hit; assumption).
      split.
      * subst second. rewrite Hfirst. simpl. apply fetch_at_most_one_request.
      * intros Hsent. rewrite Hfirst in Hsent. contradiction.
    + (* the first call finds a stale entry *)
      destruct (fetch_miss json_errors_caught server t1 api_key w) as (H2 & Hs & Hc).
      { intros e' He'. congruence. }
      fold first in H2, Hs, Hc. rewrite <- H2 in Hc. rewrite Hret in Hc.
      assert (second = (first.1, UI (calls first.2) (Return v))) as Hsecond.
      { apply (fetch_hit _ _ _ _ _ (CacheEntry t1 (calls first.2) v)).
        - rewrite Hc. apply lookup_insert_eq.
        - unfold fresh, ttl. simpl. apply Z.ltb_lt. lia. }
      rewrite Hsecond. simpl. split.
      * rewrite Hs, length_app. simpl. lia.
      * intros _. split; [reflexivity|]. split; [|reflexivity].
        destruct first.2 as [cs r]. simpl in *. subst r. reflexivity.
    + (* the first call finds no entry *)
      destruct (fetch_miss json_errors_caught server t1 api_key w) as (H2 & Hs & Hc).
      { intros e' He'. congruence. }
      fold first in H2, Hs, Hc. rewrite <- H2 in Hc. rewrite Hret in Hc.
      assert (second = (first.1, UI (calls first.2) (Return v))) as Hsecond.
      { apply (fetch_hit _ _ _ _ _ (CacheEntry t1 (calls first.2) v)).
        - rewrite Hc. apply lookup_insert_eq.
        - unfold fresh, ttl. simpl. apply Z.ltb_lt. lia. }
      rewrite Hsecond. simpl. split.
      * rewrite Hs, length_app. simpl. lia.
      * intros _. split; [reflexivity|]. split; [|reflexivity].
        destruct first.2 as [cs r]. simpl in *. subst r. reflexivity.
  - intros w e now called He Hold.
    destruct (fetch_miss json_errors_caught server now api_key w) as (H2 & Hs & Hc).
    { intros e' He'. assert (e' = e) as -> by congruence.
      unfold fresh, ttl. apply Z.ltb_ge. lia. }
    fold called in H2, Hs, Hc. split; [assumption|]. split; [assumption|].
    intros v Hv. rewrite <- H2 in Hc. rewrite Hv in Hc. rewrite Hc.
    apply lookup_insert_eq.
  - intros w now called Hraise.
    destruct (cache w !! api_key) as [e|] eqn:He;
      [destruct (fresh now e) eqn:Hf|].
    + assert (called = (w, UI (stored_calls e) (Return (stored_value e)))) as Hcalled
        by (apply fetch_hit; assumption).
      rewrite Hcalled. reflexivity.
    + destruct (fetch_miss json_errors_caught server now api_key w) as (H2 & _ & Hc).
      { intros e' He'. congruence. }
      fold called in H2, Hc. rewrite <- H2 in Hc.
      destruct (result called.2) as [v| | |] eqn:Hres;
        [exfalso; exact (Hraise v eq_refl)|exact Hc..].
    + destruct (fetch_miss json_errors_caught server now api_key w) as (H2 & _ & Hc).
      { intros e' He'. congruence. }
      fold called in H2, Hc. rewrite <- H2 in Hc.
      destruct (result called.2) as [v| | |] eqn:Hres;
        [exfalso; exact (Hraise v eq_refl)|exact Hc..].
Qed.

Lemma cache_time_to_live_witness :
  let server := fun (_ : nat) (_ : request) =>
    Responded 200 (Some (JObj {["stat" := JStr "ok"; "monitors" := JArr []]})) in
  let broken := fun (_ : nat) (_ : request) => Responded 200 (Some (JArr [])) in
  let first := fetch_uptimerobot_data true server 0 "u123-abc" (World ∅ []) in
  let second := fetch_uptimerobot_data true server 299 "u123-abc" first.1 in
  let third := fetch_uptimerobot_data true server 300 "u123-abc" first.1 in
  let raised := fetch_uptimerobot_data true broken 0 "u123-abc" (World ∅ []) in
  ((length (sent second.1) <= 1)%nat /\ second.2 = first.2) /\
  sent third.1 = sent first.1 ++ [Request API_URL (payload "u123-abc")] /\
  cache raised.1 = ∅.
Proof.
  intros server broken first second third raised. split; [|split].
  - destruct (proj1 (cache_time_to_live true server "u123-abc")
                (World ∅ []) 0 299 (JArr [])) as [Hlen Hhit].
    + vm_compute. reflexivity.
    + lia.
    + split; [exact Hlen|]. apply Hhit. vm_compute. discriminate.
  - apply (proj1 (proj2 (cache_time_to_live true server "u123-abc"))
             first.1 (CacheEntry 0 [] (JArr [])) 300).
    + vm_compute. reflexivity.
    + simpl. lia.
  - apply (proj2 (proj2 (cache_time_to_live true broken "u123-abc")) (World ∅ []) 0).
    intros v. vm_compute. discriminate.
Defined.

(** C2, as stated, fails when the call raises: a response whose JSON is
    not an object makes [data.get] raise [AttributeError], the call has no
    result to store, and a second call one second later sends a second
    request. *)
Lemma raising_call_is_not_cached :
  let server := fun (_ : nat) (_ : request) => Responded 200 (Some (JArr [])) in
  let first := fetch_uptimerobot_data true server 0 "u123-abc" (World ∅ []) in
  let second := fetch_uptimerobot_data true server 1 "u123-abc" first.1 in
  result first.2 = Raise AttributeError /\
  length (sent second.1) = 2%nat /\
  ~ (length (sent second.1) <= 1)%nat.
Proof.
  intros server first second.
  assert (length (sent second.1) = 2%nat) as Hlen by (vm_compute; reflexivity).
  split; [vm_compute; reflexivity|]. split; [exact Hlen|]. rewrite Hlen. lia.
Qed.

(** ** Calendar time *)

Lemma year_of_era_bounds (doe : Z) :
  0 <= doe < 146097 ->
  let yoe := (doe - doe / 1460 + doe / 36524 - doe / 146096) / 365 in
  0 <= yoe < 400 /\ 0 <= doe - (365 * yoe + yoe / 4 - yoe / 100) < 366.
Proof. intros H yoe. subst yoe. Z.div_mod_to_equations. lia. Qed.

Lemma month_day_bounds (doy : Z) :
  0 <= doy < 366 ->
  let mp := (5 * doy + 2) / 153 in
  0 <= mp < 12 /\ 1 <= doy - (153 * mp + 2) / 5 + 1 <= 31.
Proof. intros H mp. subst mp. Z.div_mod_to_equations. lia. Qed.

Ltac name_civil_parts days :=
  unfold civil_from_days;
  set (z := days + 719468);
  set (era := z / 146097);
  set (doe := z - era * 146097);
  assert (0 <= doe < 146097) as Hdoe
    by (subst doe era; Z.div_mod_to_equations; lia);
  pose proof (year_of_era_bounds doe Hdoe) as [Hyoe Hdoy];
  cbv zeta in Hyoe, Hdoy;
  set (yoe := (doe - doe / 1460 + doe / 36524 - doe / 146096) / 365) in *;
  set (doy := doe - (365 * yoe + yoe / 4 - yoe / 100)) in *;
  pose proof (month_day_bounds doy Hdoy) as [Hmp Hd];
  cbv zeta in Hmp, Hd;
  set (mp := (5 * doy + 2) / 153) in *.

(** The month is 1..12 and the day 1..31. *)
Lemma civil_from_days_range (days : Z) :
  1 <= (civil_from_days days).1.2 <= 12 /\ 1 <= (civil_from_days days).2 <= 31.
Proof.
  name_civil_parts days. cbv zeta. simpl. split; [|exact Hd].
  destruct (Z.ltb_spec mp 10); lia.
Qed.

(** The date computed for a day count is the date with that day count. *)
Lemma days_from_civil_from_days (days : Z) :
  days_from_civil (civil_from_days days).1.1 (civil_from_days days).1.2
                  (civil_from_days days).2 = days.
Proof.
  name_civil_parts days. cbv zeta. simpl fst. simpl snd.
  set (m := if mp <? 10 then mp + 3 else mp - 9).
  unfold days_from_civil.
  assert ((if 2 <? m then m - 3 else m + 9) = mp) as ->.
  { subst m. destruct (Z.ltb_spec mp 10);
      [destruct (Z.ltb_spec 2 (mp + 3))|destruct (Z.ltb_spec 2 (mp - 9))]; lia. }
  assert ((if m <=? 2 then yoe + era * 400 + (if m <=? 2 then 1 else 0) - 1
           else yoe + era * 400 + (if m <=? 2 then 1 else 0)) = yoe + era * 400) as ->.
  { destruct (m <=? 2); lia. }
  assert ((yoe + era * 400) / 400 = era) as ->.
  { rewrite Z.div_add by discriminate. rewrite (Z.div_small _ _ Hyoe). reflexivity. }
  replace (yoe + era * 400 - era * 400) with yoe by ring.
  subst doy doe z. ring.
Qed.

Lemma datetime_of_seconds_range (t : Z) : fields_in_range (datetime_of_seconds t).
Proof.
  unfold fields_in_range, datetime_of_seconds.
  pose proof (civil_from_days_range (t / 86400)) as [Hm Hd].
  destruct (civil_from_days (t / 86400)) as [[y m] d]. simpl in *.
  repeat split; try lia; Z.div_mod_to_equations; lia.
Qed.

(** A count of seconds and its calendar fields denote the same instant. *)
Lemma seconds_of_datetime_of_seconds (t : Z) :
  seconds_of_datetime (datetime_of_seconds t) = t.
Proof.
  unfold seconds_of_datetime, datetime_of_seconds.
  pose proof (days_from_civil_from_days (t / 86400)) as Hdays.
  destruct (civil_from_days (t / 86400)) as [[y m] d]. simpl in *.
  rewrite Hdays. Z.div_mod_to_equations. lia.
Qed.

(** The last day of the year counted from March is 29 February, and it
    occurs in leap years only. *)
Lemma day_of_year_leap (doe : Z) :
  0 <= doe < 146097 ->
  let yoe := (doe - doe / 1460 + doe / 36524 - doe / 146096) / 365 in
  let doy := doe - (365 * yoe + yoe / 4 - yoe / 100) in
  doy = 365 -> (yoe + 1) mod 4 = 0 /\ ((yoe + 1) mod 100 <> 0 \/ yoe = 399).
Proof. intros H yoe doy. subst doy yoe. Z.div_mod_to_equations. lia. Qed.

Lemma month_length_bounds (doy : Z) :
  0 <= doy < 366 ->
  let mp := (5 * doy + 2) / 153 in
  let d := doy - (153 * mp + 2) / 5 + 1 in
  (mp = 11 -> d <= 29 /\ (d = 29 -> doy = 365)) /\
  (mp <> 11 ->
   d <= (if (mp =? 1) || (mp =? 3) || (mp =? 6) || (mp =? 8) then 30 else 31)).
Proof.
  intros H mp d. subst d mp.
  assert (0 <= (5 * doy + 2) / 153 < 12) as Hmp by (Z.div_mod_to_equations; lia).
  remember ((5 * doy + 2) / 153) as mp eqn:E.
  assert (153 * mp <= 5 * doy + 2 < 153 * mp + 153) as Hb
    by (subst mp; Z.div_mod_to_equations; lia).
  clear E.
  assert (mp = 0 \/ mp = 1 \/ mp = 2 \/ mp = 3 \/ mp = 4 \/ mp = 5 \/ mp = 6 \/
          mp = 7 \/ mp = 8 \/ mp = 9 \/ mp = 10 \/ mp = 11) as Hc by lia.
  destruct Hc as [->|[->|[->|[->|[->|[->|[->|[->|[->|[->|[->| ->]]]]]]]]]]];
    cbn [Z.eqb Pos.eqb orb]; Z.div_mod_to_equations; lia.
Qed.

Lemma is_leap_of_year_of_era (yoe era : Z) :
  0 <= yoe < 400 ->
  is_leap (yoe + era * 400 + 1) = true <->
  (yoe + 1) mod 4 = 0 /\ ((yoe + 1) mod 100 <> 0 \/ yoe = 399).
Proof.
  intros H. unfold is_leap.
  rewrite andb_true_iff, orb_true_iff, negb_true_iff, !Z.eqb_eq, Z.eqb_neq.
  Z.div_mod_to_equations. lia.
Qed.

(** The date computed for a day count exists in the calendar. *)
Lemma civil_from_days_valid (days : Z) :
  1 <= (civil_from_days days).2
    <= days_in_month (civil_from_days days).1.1 (civil_from_days days).1.2.
Proof.
  name_civil_parts days.
  pose proof (day_of_year_leap doe Hdoe) as Hleap. cbv zeta in Hleap.
  fold yoe in Hleap. fold doy in Hleap.
  pose proof (month_length_bounds doy Hdoy) as [Hfeb Hother]. cbv zeta in Hfeb, Hother.
  fold mp in Hfeb, Hother.
  cbv zeta. simpl fst. simpl snd.
  set (d := doy - (153 * mp + 2) / 5 + 1) in *.
  split; [lia|]. unfold days_in_month.
  clearbody d mp. clearbody doy. clearbody yoe. clearbody era.
  destruct (decide (mp = 11)) as [Hmp11|Hmp11].
  - destruct (Hfeb Hmp11) as [Hd29 Hlast]. subst mp.
    change (if 11 <? 10 then 11 + 3 else 11 - 9) with 2.
    change (2 =? 2) with true. change (2 <=? 2) with true. cbv iota.
    destruct (is_leap (yoe + era * 400 + 1)) eqn:Hl; [exact Hd29|].
    destruct (decide (d = 29)) as [Hd'|Hd']; [|lia].
    exfalso. apply Hlast, Hleap in Hd'.
    apply (is_leap_of_year_of_era yoe era Hyoe) in Hd'. congruence.
  - specialize (Hother Hmp11).
    assert (mp = 0 \/ mp = 1 \/ mp = 2 \/ mp = 3 \/ mp = 4 \/ mp = 5 \/ mp = 6 \/
            mp = 7 \/ mp = 8 \/ mp = 9 \/ mp = 10) as Hc by lia.
    destruct Hc as [E|[E|[E|[E|[E|[E|[E|[E|[E|[E|E]]]]]]]]]]; subst mp;
      cbn [Z.ltb Z.eqb Z.compare Pos.compare Pos.compare_cont Pos.eqb Z.add Z.sub
           Z.opp Z.pos_sub Pos.add Pos.succ Pos.pred_double Z.succ_double
           Z.pred_double Z.double orb] in *; exact Hother.
Qed.

Lemma year_of_era_of_day (yoe doy : Z) :
  0 <= yoe < 400 -> 0 <= doy < 366 ->
  (doy = 365 -> (yoe + 1) mod 4 = 0 /\ ((yoe + 1) mod 100 <> 0 \/ yoe = 399)) ->
  let doe := yoe * 365 + yoe / 4 - yoe / 100 + doy in
  0 <= doe < 146097 /\
  (doe - doe / 1460 + doe / 36524 - doe / 146096) / 365 = yoe.
Proof. intros H1 H2 H3 doe. subst doe. Z.div_mod_to_equations. lia. Qed.

Lemma month_of_day_of_year (mp d : Z) :
  0 <= mp < 12 -> 1 <= d <= 31 ->
  (mp = 11 -> d <= 29) ->
  (mp = 1 \/ mp = 3 \/ mp = 6 \/ mp = 8 -> d <= 30) ->
  let doy := (153 * mp + 2) / 5 + d - 1 in
  0 <= doy < 366 /\ (5 * doy + 2) / 153 = mp /\ (doy = 365 -> mp = 11 /\ d = 29).
Proof.
  intros Hmp Hd Hfeb H30 doy. subst doy.
  assert (mp = 0 \/ mp = 1 \/ mp = 2 \/ mp = 3 \/ mp = 4 \/ mp = 5 \/ mp = 6 \/
          mp = 7 \/ mp = 8 \/ mp = 9 \/ mp = 10 \/ mp = 11) as Hc by lia.
  destruct Hc as [->|[->|[->|[->|[->|[->|[->|[->|[->|[->|[->| ->]]]]]]]]]]];
    Z.div_mod_to_equations; lia.
Qed.

(** The length of a month, case by case. *)
Lemma days_in_month_cases (y m : Z) :
  1 <= m <= 12 ->
  (m = 2 /\ is_leap y = true /\ days_in_month y m = 29) \/
  (m = 2 /\ is_leap y = false /\ days_in_month y m = 28) \/
  ((m = 4 \/ m = 6 \/ m = 9 \/ m = 11) /\ days_in_month y m = 30) \/
  ((m = 1 \/ m = 3 \/ m = 5 \/ m = 7 \/ m = 8 \/ m = 10 \/ m = 12) /\
   days_in_month y m = 31).
Proof.
  intros Hm.
  assert (m = 1 \/ m = 2 \/ m = 3 \/ m = 4 \/ m = 5 \/ m = 6 \/ m = 7 \/ m = 8 \/
          m = 9 \/ m = 10 \/ m = 11 \/ m = 12) as Hc by lia.
  unfold days_in_month.
  destruct Hc as [->|[->|[->|[->|[->|[->|[->|[->|[->|[->|[->| ->]]]]]]]]]]];
    cbn [Z.eqb Pos.eqb orb]; try (destruct (is_leap y)); tauto.
Qed.

(** A date of the calendar is the date computed for its day count. *)
Lemma civil_from_days_from_civil (y m d : Z) :
  1 <= m <= 12 -> 1 <= d <= days_in_month y m ->
  civil_from_days (days_from_civil y m d) = (y, m, d).
Proof.
  intros Hm Hd.
  set (y' := if m <=? 2 then y - 1 else y).
  set (era := y' / 400).
  set (yoe := y' - era * 400).
  set (mp := if 2 <? m then m - 3 else m + 9).
  assert (0 <= yoe < 400) as Hyoe by (subst yoe era; Z.div_mod_to_equations; lia).
  assert ((2 < m /\ mp = m - 3) \/ (m <= 2 /\ mp = m + 9)) as Hmpm.
  { subst mp. destruct (Z.ltb_spec 2 m); [left|right]; lia. }
  assert (0 <= mp < 12 /\ m = (if mp <? 10 then mp + 3 else mp - 9)) as [Hmp Hm'].
  { split; [lia|]. destruct (Z.ltb_spec mp 10); lia. }
  assert (y = yoe + era * 400 + (if m <=? 2 then 1 else 0)) as Hy.
  { subst yoe y'. destruct (m <=? 2); lia. }
  pose proof (days_in_month_cases y m Hm) as Hcases.
  assert (mp = 11 -> d = 29 ->
          (yoe + 1) mod 4 = 0 /\ ((yoe + 1) mod 100 <> 0 \/ yoe = 399)) as Hfeb.
  { intros H11 H29. apply (is_leap_of_year_of_era yoe era Hyoe).
    assert (m = 2) as Hm2 by lia.
    assert (y = yoe + era * 400 + 1) as Hy1.
    { rewrite Hy. destruct (Z.leb_spec m 2); lia. }
    rewrite <- Hy1.
    destruct Hcases as [(_ & Hl & _)|[(_ & _ & H28)|[(H & _)|(H & _)]]];
      [exact Hl|lia|lia|lia]. }
  destruct (month_of_day_of_year mp d Hmp) as (Hdoy & Hmpinv & Hlast).
  { destruct Hcases as [(_ & _ & H)|[(_ & _ & H)|[(_ & H)|(_ & H)]]]; lia. }
  { destruct Hcases as [(_ & _ & H)|[(_ & _ & H)|[(? & H)|(? & H)]]]; lia. }
  { destruct Hcases as [(? & _ & H)|[(? & _ & H)|[(? & H)|(? & H)]]]; lia. }
  cbv zeta in Hdoy, Hmpinv, Hlast.
  set (doy := (153 * mp + 2) / 5 + d - 1) in *.
  destruct (year_of_era_of_day yoe doy Hyoe Hdoy) as (Hdoe & Hyoeinv).
  { intros H365. destruct (Hlast H365) as [H11 H29]. exact (Hfeb H11 H29). }
  cbv zeta in Hdoe, Hyoeinv.
  set (doe := yoe * 365 + yoe / 4 - yoe / 100 + doy) in *.
  assert (days_from_civil y m d + 719468 = doe + era * 146097) as Hz.
  { change (days_from_civil y m d) with (era * 146097 + doe - 719468). ring. }
  assert (doe - (365 * yoe + yoe / 4 - yoe / 100) = doy) as Hdoy' by (subst doe; ring).
  assert (doy - (153 * mp + 2) / 5 + 1 = d) as Hd' by (subst doy; ring).
  clearbody doe. clearbody doy. clearbody mp. clearbody yoe. clearbody era.
  unfold civil_from_days. cbv zeta. rewrite Hz.
  rewrite Z.div_add by discriminate. rewrite (Z.div_small _ _ Hdoe), Z.add_0_l.
  replace (doe + era * 146097 - era * 146097) with doe by ring.
  rewrite Hyoeinv, Hdoy', Hmpinv, Hd', <- Hm', <- Hy. reflexivity.
Qed.

(** So a valid date and time is the calendar time of its count of
    seconds, and two valid dates and times with the same count are the
    same. *)
Lemma datetime_of_seconds_of_datetime (d : datetime) :
  valid_datetime d -> datetime_of_seconds (seconds_of_datetime d) = d.
Proof.
  intros (Hm & Hd & Hh & Hmin & Hs). destruct d as [y m dd hh mm ss].
  cbn [year month day hour minute second] in *.
  unfold datetime_of_seconds, seconds_of_datetime.
  cbn [year month day hour minute second].
  set (days := days_from_civil y m dd).
  assert ((days * 86400 + hh * 3600 + mm * 60 + ss) / 86400 = days) as ->
    by (Z.div_mod_to_equations; lia).
  assert ((days * 86400 + hh * 3600 + mm * 60 + ss) mod 86400 = hh * 3600 + mm * 60 + ss)
    as -> by (Z.div_mod_to_equations; lia).
  subst days. rewrite (civil_from_days_from_civil y m dd Hm Hd).
  f_equal; Z.div_mod_to_equations; lia.
Qed.

Lemma seconds_of_datetime_inj (d1 d2 : datetime) :
  valid_datetime d1 -> valid_datetime d2 ->
  seconds_of_datetime d1 = seconds_of_datetime d2 -> d1 = d2.
Proof.
  intros H1 H2 H.
  rewrite <- (datetime_of_seconds_of_datetime d1 H1).
  rewrite <- (datetime_of_seconds_of_datetime d2 H2). rewrite H. reflexivity.
Qed.

Lemma datetime_of_seconds_valid (t : Z) : valid_datetime (datetime_of_seconds t).
Proof.
  unfold valid_datetime, datetime_of_seconds.
  pose proof (civil_from_days_range (t / 86400)) as [Hm _].
  pose proof (civil_from_days_valid (t / 86400)) as Hd.
  destruct (civil_from_days (t / 86400)) as [[y m] d]. simpl in *.
  repeat split; try lia; Z.div_mod_to_equations; lia.
Qed.

(** ** The timestamp text *)

Lemma digit_value_digit (n : Z) : digit_value (digit n) = Some (n mod 10).
Proof.
  unfold digit_value, digit.
  pose proof (Z.mod_pos_bound n 10 ltac:(lia)) as Hr.
  rewrite nat_ascii_embedding by lia.
  replace (Z.of_nat (48 + Z.to_nat (n mod 10))) with (48 + n mod 10) by lia.
  destruct (Z.leb_spec 48 (48 + n mod 10)); [|lia].
  destruct (Z.leb_spec (48 + n mod 10) 57); [|lia].
  cbn [andb]. f_equal. lia.
Qed.

Lemma read_two_digits (n : Z) :
  0 <= n < 100 ->
  read_digits 0 (String (digit (n / 10)) (String (digit n) "")) = Some n.
Proof.
  intros H. cbn [read_digits]. rewrite !digit_value_digit.
  f_equal. Z.div_mod_to_equations. lia.
Qed.

Lemma read_four_digits (n : Z) :
  0 <= n < 10000 ->
  read_digits 0 (String (digit (n / 1000)) (String (digit (n / 100))
                (String (digit (n / 10)) (String (digit n) "")))) = Some n.
Proof.
  intros H. cbn [read_digits]. rewrite !digit_value_digit.
  f_equal. Z.div_mod_to_equations. lia.
Qed.

(** For a year of four digits the text has the form
    [YYYY-MM-DD HH:MM:SS] and reads back as the date and time it was made
    from. *)
Lemma strptime_strftime (d : datetime) :
  1000 <= year d <= 9999 -> fields_in_range d ->
  exists text : string,
    strftime d = Return text /\ String.length text = 19%nat /\ strptime text = Some d.
Proof.
  intros Hy (Hm & Hd & Hh & Hmin & Hs). unfold strftime.
  destruct (Z.leb_spec 1000 (year d)); [|lia].
  destruct (Z.leb_spec (year d) 9999); [|lia].
  cbn [andb]. eexists. split; [reflexivity|].
  destruct d as [y m dd hh mm ss].
  cbn [year month day hour minute second] in *.
  split; [reflexivity|].
  unfold pad4, pad2.
  remember (digit (y / 1000)) as y1 eqn:Ey1. remember (digit (y / 100)) as y2 eqn:Ey2.
  remember (digit (y / 10)) as y3 eqn:Ey3. remember (digit y) as y4 eqn:Ey4.
  remember (digit (m / 10)) as m1 eqn:Em1. remember (digit m) as m2 eqn:Em2.
  remember (digit (dd / 10)) as d1 eqn:Ed1. remember (digit dd) as d2 eqn:Ed2.
  remember (digit (hh / 10)) as h1 eqn:Eh1. remember (digit hh) as h2 eqn:Eh2.
  remember (digit (mm / 10)) as n1 eqn:En1. remember (digit mm) as n2 eqn:En2.
  remember (digit (ss / 10)) as s1 eqn:Es1. remember (digit ss) as s2 eqn:Es2.
  cbv - [read_digits]. subst.
  rewrite read_four_digits by lia. rewrite !read_two_digits by lia. reflexivity.
Qed.

(** ** The event log *)

Lemma fromtimestamp_Return (utcoffset : Z -> Z) (t : Z) :
  fromtimestamp_converts utcoffset t = true ->
  fromtimestamp utcoffset (JNum t) = Return (localtime utcoffset t).
Proof. intros H. unfold fromtimestamp. rewrite H. reflexivity. Qed.

Lemma fromtimestamp_Return_inv (utcoffset : Z -> Z) (t : Z) (d : datetime) :
  fromtimestamp utcoffset (JNum t) = Return d -> d = localtime utcoffset t.
Proof.
  unfold fromtimestamp. destruct (fromtimestamp_converts utcoffset t); [|discriminate].
  intros H. injection H as <-. reflexivity.
Qed.

Lemma log_details_reason (entry : record) :
  (forall v, entry !! "reason" = Some v -> exists reason : record, v = JObj reason) ->
  log_details (JObj entry) =
    Return match entry !! "reason" with
           | Some (JObj reason) => default (JStr "N/A") (reason !! "detail")
           | _ => JStr "N/A"
           end.
Proof.
  intros Hreason. unfold log_details, get_method.
  destruct (entry !! "reason") as [v|] eqn:Hv.
  - destruct (Hreason v eq_refl) as [reason ->]. reflexivity.
  - cbn [default mbind outcome_bind]. rewrite lookup_empty. reflexivity.
Qed.

(** The row of a well-formed entry whose time [datetime] converts, with
    the text that [strftime] gives for its local time. *)
Lemma processed_log_text (utcoffset : Z -> Z) (entry : record) (code t : Z) :
  well_formed_log utcoffset entry code t ->
  fromtimestamp_converts utcoffset t = true ->
  exists text : string,
    strftime (localtime utcoffset t) = Return text /\
    strptime text = Some (localtime utcoffset t) /\
    processed_log utcoffset (JObj entry) =
      Return (LogRow ((status_enumeration code ("Event", "ℹ️")).2 +:+ " "
                      +:+ (status_enumeration code ("Event", "ℹ️")).1)
                     text
                     match entry !! "reason" with
                     | Some (JObj reason) => default (JStr "N/A") (reason !! "detail")
                     | _ => JStr "N/A"
                     end).
Proof.
  intros (Htype & Hdt & Hyear & Hreason) Hconv.
  destruct (strptime_strftime (localtime utcoffset t) Hyear
              (datetime_of_seconds_range _)) as (text & Htext & _ & Hread).
  exists text. split; [exact Htext|]. split; [exact Hread|].
  unfold processed_log.
  assert (log_status (JObj entry) = Return (status_enumeration code ("Event", "ℹ️"))) as ->.
  { unfold log_status, subscript. rewrite Htype. apply STATUS_MAP_get. }
  rewrite bind_Return. unfold subscript. rewrite Hdt, bind_Return.
  rewrite (fromtimestamp_Return _ _ Hconv), bind_Return.
  rewrite Htext, bind_Return.
  rewrite (log_details_reason entry Hreason), bind_Return. reflexivity.
Qed.

Lemma processed_log_row (utcoffset : Z -> Z) (entry : record) (code t : Z) :
  well_formed_log utcoffset entry code t ->
  fromtimestamp_converts utcoffset t = true ->
  exists row, processed_log utcoffset (JObj entry) = Return row /\
              row_of_log utcoffset entry code t row.
Proof.
  intros Hwf Hconv.
  destruct (processed_log_text _ _ _ _ Hwf Hconv) as (text & _ & Hread & Hrow).
  eexists. split; [exact Hrow|].
  unfold row_of_log. cbn [Event Timestamp Details].
  split; [reflexivity|]. split; [|reflexivity].
  exists (localtime utcoffset t). split; [exact Hread|].
  split; [apply datetime_of_seconds_valid|apply seconds_of_datetime_of_seconds].
Qed.



(** ** The response-time chart *)

Lemma for_each_as_dict (entries : list record) :
  for_each as_dict (JObj <$> entries) = Return entries.
Proof.
  apply for_each_Return. induction entries as [|e entries IH]; constructor; auto.
Qed.



Lemma elem_of_columns (label : string) (entries : list record) :
  label ∈ df_columns (frame_of_dicts entries) <->
  exists e, e ∈ entries /\ is_Some (e !! label).
Proof.
  unfold frame_of_dicts. cbn [df_columns]. rewrite elem_of_union_list. split.
  - intros (X & HX & Hl). apply list_elem_of_fmap in HX as (e & -> & He).
    exists e. split; [assumption|]. apply elem_of_dom in Hl. assumption.
  - intros (e & He & Hl). exists (dom e). split.
    + apply list_elem_of_fmap. exists e. auto.
    + apply elem_of_dom. assumption.
Qed.







(** ** Checks on concrete values *)

Example split_consecutive_separators :
  py_split "-" "99.9--100" = ["99.9"; ""; "100"]%string.
Proof. reflexivity. Qed.

Example leap_day_2000 :
  strftime (datetime_of_seconds 951782400) = Return "2000-02-29 00:00:00"%string.
Proof. reflexivity. Qed.

Example no_leap_day_2100 :
  strftime (datetime_of_seconds 4107542400) = Return "2100-03-01 00:00:00"%string.
Proof. reflexivity. Qed.

Example before_the_epoch :
  strftime (datetime_of_seconds (-1)) = Return "1969-12-31 23:59:59"%string.
Proof. reflexivity. Qed.

Example local_time_one_hour_east :
  fromtimestamp (fun _ => 3600) (JNum 1700000000) = Return (DateTime 2023 11 14 23 13 20).
Proof. reflexivity. Qed.

Example status_of_true_is_status_1 :
  monitor_status ({["status" := JBool true]} : record) = Return ("Not Checked Yet", "❔").
Proof. reflexivity. Qed.

Example index_of_record_without_name :
  process_monitor_data (JArr [JObj {["url" := JStr "https://a.example"]}])
    = Raise (KeyError "friendly_name").
Proof. reflexivity. Qed.

(** * Further properties of the script *)

(** ** The API key and the fetcher *)

(** X1: without the environment variable, or with an empty one, the
    script shows the configuration error and stops; no request is sent and
    the cache is left as it was. *)
Theorem missing_api_key_halts (json_errors_caught : bool)
    (server : nat -> request -> post_result) (environ : gmap string string)
    (now : Z) (w : world) :
  environ !! "UPTIMEROBOT_API_KEY" = None \/ environ !! "UPTIMEROBOT_API_KEY" = Some "" ->
  script_top json_errors_caught server environ now w =
    (w, UI [st_set_page_config;
            st_error [Text "API Key not found. Please check your UPTIMEROBOT_API_KEY environment variable in Render."]]
           Stop).
Proof. intros [H|H]; unfold script_top; rewrite H; reflexivity. Qed.

Lemma missing_api_key_halts_witness :
  sent (script_top true (fun _ _ => PostRaised Timeout) ∅ 0 (World ∅ [])).1 = [] /\
  result (script_top true (fun _ _ => PostRaised Timeout) ∅ 0 (World ∅ [])).2 = Stop.
Proof.
  rewrite (missing_api_key_halts true (fun _ _ => PostRaised Timeout) ∅ 0 (World ∅ [])).
  - split; reflexivity.
  - left. reflexivity.
Defined.

(** X2: when the response is not an HTTP error and its JSON is not an
    object (a list, a string, a number, [null], a boolean), [data.get]
    raises [AttributeError]; the [except] clause does not catch it, so the
    call raises and shows nothing. *)
Theorem fetch_non_object_raises (json_errors_caught : bool)
    (server : nat -> request -> post_result) (api_key : string)
    (sent : list request) (status_code : Z) (data : json) :
  server (length sent) (Request API_URL (payload api_key))
    = Responded status_code (Some data) ->
  ~ (400 <= status_code < 600) ->
  (forall o : record, data <> JObj o) ->
  (fetch_uptimerobot_data_body json_errors_caught server api_key sent).2
    = UI [] (Raise AttributeError).
Proof.
  intros Hresp Hstatus Hdata.
  unfold fetch_uptimerobot_data_body, requests_post. cbn [snd].
  rewrite Hresp, (raise_for_status_None _ Hstatus).
  destruct data as [| | | | |o]; try reflexivity.
  exfalso. exact (Hdata o eq_refl).
Qed.

Lemma fetch_non_object_raises_witness :
  (fetch_uptimerobot_data_body true
     (fun _ _ => Responded 200 (Some (JArr []))) "u123-abc" []).2
  = UI [] (Raise AttributeError).
Proof.
  apply (fetch_non_object_raises true (fun _ _ => Responded 200 (Some (JArr [])))
           "u123-abc" [] 200 (JArr [])).
  - reflexivity.
  - lia.
  - discriminate.
Defined.

(** ** The status and uptime indicators *)

Lemma STATUS_MAP_not_int (k : pykey) :
  (forall n, k <> KInt n) -> STATUS_MAP !! k = None.
Proof.
  intros H. unfold STATUS_MAP.
  rewrite !lookup_insert_ne by (intros <-; eapply H; reflexivity).
  apply lookup_empty.
Qed.

(** X3: what line 108 shows when the [status] field is an integer, a
    boolean, a string, [null], a list or a dict, or is missing.  (A number
    with a fraction is not among the values described here: [2.0] is equal
    to the key [2] in Python and would be found in the table.)  An integer
    is looked up in the table; [True] and [False] count as 1 and 0; a
    string (even ["2"]) or [null] gives [("Unknown", "❓")]; a list or a
    dict raises [TypeError]; and a record without the field raises
    [KeyError]. *)
Theorem monitor_status_of_any_value (monitor : record) :
  monitor_status monitor =
    match monitor !! "status" with
    | None => Raise (KeyError "status")
    | Some (JNum n) => Return (status_enumeration n ("Unknown", "❓"))
    | Some (JBool b) => Return (status_enumeration (if b then 1 else 0) ("Unknown", "❓"))
    | Some (JStr _) | Some JNull => Return ("Unknown", "❓")
    | Some (JArr _) | Some (JObj _) => Raise TypeError
    end.
Proof.
  unfold monitor_status, getitem.
  destruct (monitor !! "status") as [[|b|n|s|l|o]|]; rewrite ?bind_Return.
  - reflexivity.
  - destruct b; reflexivity.
  - apply STATUS_MAP_get.
  - unfold dict_get. cbn [hash_key]. rewrite !bind_Return.
    rewrite STATUS_MAP_not_int by discriminate. reflexivity.
  - reflexivity.
  - reflexivity.
  - reflexivity.
Qed.

(** X4: when [custom_uptime_ratio] is present and is not a string (the
    provider sends [null] or a number), line 111 raises [AttributeError]:
    the default applies to an absent field only. *)
Theorem uptime_non_string_raises (monitor : record) (v : json) :
  monitor !! "custom_uptime_ratio" = Some v ->
  (forall s : string, v <> JStr s) ->
  uptime_ratios monitor = Raise AttributeError /\
  uptime_kpis monitor = Raise AttributeError.
Proof.
  intros Hv Hns. unfold uptime_kpis, uptime_ratios. rewrite Hv. cbn [default].
  destruct v as [| | |s| |]; try (split; reflexivity).
  exfalso. exact (Hns s eq_refl).
Qed.

Lemma uptime_non_string_raises_witness :
  uptime_kpis ({["custom_uptime_ratio" := JNull]} : record) = Raise AttributeError.
Proof.
  apply (uptime_non_string_raises {["custom_uptime_ratio" := JNull]} JNull).
  - reflexivity.
  - discriminate.
Defined.

Lemma first_separator (sep : ascii) (s : string) :
  has_char sep s = true ->
  exists a rest, s = a +:+ String sep rest /\ has_char sep a = false.
Proof.
  induction s as [|c s IH]; simpl; [discriminate|].
  destruct (Ascii.eqb_spec c sep) as [->|Hne]; simpl.
  - intros _. exists "", s. split; reflexivity.
  - intros H. destruct (IH H) as (a & rest & -> & Ha).
    exists (String c a), rest. split; [reflexivity|].
    simpl. rewrite Ha. destruct (Ascii.eqb_spec c sep); [contradiction|reflexivity].
Qed.

Lemma py_split_length (sep : ascii) (s : string) :
  length (py_split sep s) = S (count_char sep s).
Proof.
  induction s as [|c s IH]; simpl; [reflexivity|].
  destruct (Ascii.eqb c sep); simpl.
  - rewrite IH. reflexivity.
  - pose proof (py_split_nonempty sep s) as Hne.
    destruct (py_split sep s) as [|seg segs]; [contradiction|]. simpl in *. exact IH.
Qed.

(** X5: the two uptime values for every string in the field.  The 7-day
    value is the text before the first ["-"], or the whole string when it
    has none: the ['N/A'] alternative of line 112 is never taken.  The
    30-day value is ["N/A"] when the string has no ["-"], and otherwise the
    text between the first ["-"] and the second, or the end. *)
Theorem uptime_of_any_string (monitor : record) (s : string) :
  monitor !! "custom_uptime_ratio" = Some (JStr s) ->
  (has_char "-" s = false /\ uptime_kpis monitor = Return (s, "N/A")) \/
  (exists a rest : string,
     s = a +:+ String "-" rest /\ has_char "-" a = false /\
     ((has_char "-" rest = false /\ uptime_kpis monitor = Return (a, rest)) \/
      (exists b tail : string,
         rest = b +:+ String "-" tail /\ has_char "-" b = false /\
         uptime_kpis monitor = Return (a, b)))).
Proof.
  intros H. rewrite (uptime_kpis_str _ _ H).
  destruct (has_char "-" s) eqn:Hs.
  - right. destruct (first_separator _ _ Hs) as (a & rest & -> & Ha).
    exists a, rest. split; [reflexivity|]. split; [exact Ha|].
    rewrite (py_split_cut _ _ _ Ha).
    destruct (has_char "-" rest) eqn:Hrest.
    + right. destruct (first_separator _ _ Hrest) as (b & tail & -> & Hb).
      exists b, tail. split; [reflexivity|]. split; [exact Hb|].
      rewrite (py_split_cut _ _ _ Hb). reflexivity.
    + left. split; [reflexivity|]. rewrite (py_split_no_sep _ _ Hrest). reflexivity.
  - left. split; [reflexivity|]. rewrite (py_split_no_sep _ _ Hs). reflexivity.
Qed.

Lemma uptime_of_any_string_witness :
  (has_char "-" "100.000-99.987" = false /\
   uptime_kpis ({["custom_uptime_ratio" := JStr "100.000-99.987"]} : record)
     = Return ("100.000-99.987", "N/A")) \/
  (exists a rest : string,
     "100.000-99.987" = a +:+ String "-" rest /\ has_char "-" a = false /\
     ((has_char "-" rest = false /\
       uptime_kpis ({["custom_uptime_ratio" := JStr "100.000-99.987"]} : record)
         = Return (a, rest)) \/
      (exists b tail : string,
         rest = b +:+ String "-" tail /\ has_char "-" b = false /\
         uptime_kpis ({["custom_uptime_ratio" := JStr "100.000-99.987"]} : record)
           = Return (a, b)))).
Proof.
  apply (uptime_of_any_string {["custom_uptime_ratio" := JStr "100.000-99.987"]}
           "100.000-99.987").
  reflexivity.
Defined.

(** X6: the segments of line 111.  For a string field the split returns
    one segment more than the string has ["-"], none of the segments
    contains ["-"], and joining them with ["-"] gives the field back:
    nothing of the field is lost or reordered by the split. *)
Theorem uptime_ratios_segments (monitor : record) (s : string) :
  monitor !! "custom_uptime_ratio" = Some (JStr s) ->
  exists segments : list string,
    uptime_ratios monitor = Return segments /\
    length segments = S (count_char "-" s) /\
    Forall (fun seg => has_char "-" seg = false) segments /\
    py_join "-" segments = s.
Proof.
  intros H. exists (py_split "-" s). unfold uptime_ratios. rewrite H. cbn [default].
  split; [reflexivity|]. split; [apply py_split_length|].
  split; [apply py_split_segments|apply py_join_split].
Qed.

Lemma uptime_ratios_segments_witness :
  exists segments : list string,
    uptime_ratios ({["custom_uptime_ratio" := JStr "99.9--100"]} : record)
      = Return segments /\
    length segments = S (count_char "-" "99.9--100") /\
    Forall (fun seg => has_char "-" seg = false) segments /\
    py_join "-" segments = "99.9--100"%string.
Proof.
  apply (uptime_ratios_segments {["custom_uptime_ratio" := JStr "99.9--100"]} "99.9--100").
  reflexivity.
Defined.

(** ** The index *)

(** A loop stops at the first element on which its body raises. *)
Lemma for_each_first_failure {A B : Type} (body : A -> outcome B)
    (good : list A) (bad : A) (rest : list A) (e : exn) :
  Forall (fun x => exists y, body x = Return y) good ->
  body bad = Raise e ->
  for_each body (good ++ bad :: rest) = Raise e.
Proof.
  intros Hgood Hbad. induction Hgood as [|x good [y Hy] _ IH]; simpl.
  - rewrite Hbad. reflexivity.
  - rewrite Hy, bind_Return, IH. reflexivity.
Qed.



Lemma index_entry_inv (m : json) (k : pykey) (m' : json) :
  index_entry m = Return (k, m') ->
  m' = m /\ friendly_name_key m = Return k /\
  exists o name, m = JObj o /\ o !! "friendly_name" = Some name /\ hash_key name = Return k.
Proof.
  unfold index_entry. intros H.
  destruct (friendly_name_key m) as [k'| | |] eqn:Hk; try discriminate.
  rewrite bind_Return in H. injection H as <- <-.
  split; [reflexivity|]. split; [reflexivity|].
  unfold friendly_name_key, subscript in Hk.
  destruct m as [| | | | |o]; try discriminate.
  destruct (o !! "friendly_name") as [name|] eqn:Hname; try discriminate.
  rewrite bind_Return in Hk. eauto.
Qed.

(** X7: a truthy argument that is not a list makes the comprehension of
    line 77 raise [TypeError]: a dict is iterated by its keys and a string
    by its characters, and neither has a ['friendly_name']; a number or
    [True] is not iterable. *)
Theorem index_of_non_list_raises (monitors : json) :
  truthy monitors = true ->
  (forall l, monitors <> JArr l) ->
  process_monitor_data monitors = Raise TypeError.
Proof.
  intros Ht Hl. unfold process_monitor_data. rewrite Ht. cbn [negb].
  destruct monitors as [|b|n|s|l|o]; try reflexivity.
  - destruct s as [|c s]; [discriminate|]. reflexivity.
  - exfalso. exact (Hl l eq_refl).
  - cbn [truthy] in Ht. apply negb_true_iff, bool_decide_eq_false in Ht.
    cbn [iterate]. rewrite bind_Return.
    destruct (map_to_list o) as [|[k v] kvs] eqn:Hkvs.
    + apply map_to_list_empty_iff in Hkvs. contradiction.
    + reflexivity.
Qed.

Lemma index_of_non_list_raises_witness :
  process_monitor_data (JObj {["friendly_name" := JStr "api"]}) = Raise TypeError.
Proof.
  apply index_of_non_list_raises.
  - reflexivity.
  - discriminate.
Defined.

Lemma index_entry_of_lookup (monitors : json) (d : gmap pykey json)
    (k : pykey) (m : json) :
  process_monitor_data monitors = Return d ->
  d !! k = Some m ->
  exists (o : record) (name : json),
    m = JObj o /\ o !! "friendly_name" = Some name /\ hash_key name = Return k.
Proof.
  intros Hrun Hk.
  destruct (truthy monitors) eqn:Ht.
  - destruct monitors as [|b|n|s|l|o];
      try (rewrite index_of_non_list_raises in Hrun;
           [discriminate|exact Ht|discriminate]).
    rewrite process_monitor_data_list in Hrun.
    destruct (for_each index_entry l) as [entries| | |] eqn:Hentries; try discriminate.
    rewrite bind_Return in Hrun. injection Hrun as <-.
    pose proof (store_all_lookup entries k) as Hlook. rewrite Hk in Hlook.
    destruct Hlook as (i & Hi & _).
    apply for_each_inv in Hentries.
    destruct (Forall2_lookup_r _ _ _ _ _ Hentries Hi) as (m' & Hm' & Hentry).
    apply index_entry_inv in Hentry as (-> & _ & o & name & -> & Hname & Hhash).
    eauto.
  - rewrite (process_monitor_data_falsy _ Ht) in Hrun. injection Hrun as <-.
    rewrite lookup_empty in Hk. discriminate.
Qed.

(** X8: the index holds nothing but input records, each under its own
    name.  Whenever the function returns a mapping with a value [m] under
    a key [k], the argument is a list that contains [m], [m] is a dict,
    and [k] is the key of [m['friendly_name']]. *)
Theorem index_entries_are_input_records (monitors : json) (d : gmap pykey json)
    (k : pykey) (m : json) :
  process_monitor_data monitors = Return d ->
  d !! k = Some m ->
  exists (l : list json) (o : record) (name : json),
    monitors = JArr l /\ m ∈ l /\ m = JObj o /\
    o !! "friendly_name" = Some name /\ hash_key name = Return k.
Proof.
  intros Hrun Hk.
  destruct (truthy monitors) eqn:Ht.
  - destruct monitors as [|b|n|s|l|o];
      try (rewrite index_of_non_list_raises in Hrun;
           [discriminate|exact Ht|discriminate]).
    + rewrite process_monitor_data_list in Hrun.
      destruct (for_each index_entry l) as [entries| | |] eqn:Hentries; try discriminate.
      rewrite bind_Return in Hrun. injection Hrun as <-.
      pose proof (store_all_lookup entries k) as Hlook. rewrite Hk in Hlook.
      destruct Hlook as (i & Hi & _).
      apply for_each_inv in Hentries.
      destruct (Forall2_lookup_r _ _ _ _ _ Hentries Hi) as (m' & Hm' & Hentry).
      apply index_entry_inv in Hentry as (-> & _ & o & name & -> & Hname & Hhash).
      exists l, o, name. split; [reflexivity|]. split; [|auto].
      apply list_elem_of_lookup. eauto.
  - rewrite (process_monitor_data_falsy _ Ht) in Hrun. injection Hrun as <-.
    rewrite lookup_empty in Hk. discriminate.
Qed.

Lemma index_entries_are_input_records_witness :
  exists (l : list json) (o : record) (name : json),
    JArr [JObj {["friendly_name" := JStr "api"; "url" := JStr "https://a.example"]}] = JArr l /\
    JObj {["friendly_name" := JStr "api"; "url" := JStr "https://a.example"]} ∈ l /\
    JObj {["friendly_name" := JStr "api"; "url" := JStr "https://a.example"]} = JObj o /\
    o !! "friendly_name" = Some name /\ hash_key name = Return (KStr "api").
Proof.
  apply (index_entries_are_input_records
    (JArr [JObj {["friendly_name" := JStr "api"; "url" := JStr "https://a.example"]}])
    {[KStr "api" := JObj {["friendly_name" := JStr "api"; "url" := JStr "https://a.example"]}]}).
  - vm_compute. reflexivity.
  - reflexivity.
Defined.

(** X9: no partial index.  When the records before some record are well
    formed and that record has no ['friendly_name'], the function raises
    [KeyError]; when it is not a dict, or its name is a list or a dict,
    the function raises [TypeError].  The records after it play no part. *)
Theorem index_first_malformed_record (good : list json) (bad : json) (rest : list json) :
  Forall (fun m => exists k, friendly_name_key m = Return k) good ->
  (forall o : record, bad = JObj o -> o !! "friendly_name" = None ->
     process_monitor_data (JArr (good ++ bad :: rest)) = Raise (KeyError "friendly_name")) /\
  ((forall o : record, bad <> JObj o) ->
     process_monitor_data (JArr (good ++ bad :: rest)) = Raise TypeError) /\
  (forall (o : record) (name : json), bad = JObj o -> o !! "friendly_name" = Some name ->
     hash_key name = Raise TypeError ->
     process_monitor_data (JArr (good ++ bad :: rest)) = Raise TypeError).
Proof.
  intros Hgood.
  assert (forall e, friendly_name_key bad = Raise e ->
            process_monitor_data (JArr (good ++ bad :: rest)) = Raise e) as Hfail.
  { intros e He. rewrite process_monitor_data_list.
    rewrite (for_each_first_failure index_entry good bad rest e); [reflexivity| |].
    - eapply Forall_impl; [exact Hgood|]. intros m [k Hk].
      exists (k, m). unfold index_entry. rewrite Hk. reflexivity.
    - unfold index_entry. rewrite He. reflexivity. }
  split; [|split].
  - intros o -> Hname. apply Hfail.
    unfold friendly_name_key, subscript. rewrite Hname. reflexivity.
  - intros Hbad. apply Hfail.
    destruct bad as [| | | | |o]; try reflexivity. exfalso. exact (Hbad o eq_refl).
  - intros o name -> Hname Hhash. apply Hfail.
    unfold friendly_name_key, subscript. rewrite Hname, bind_Return. exact Hhash.
Qed.

Lemma index_first_malformed_record_witness :
  process_monitor_data
    (JArr ([JObj {["friendly_name" := JStr "api"]}]
           ++ JObj {["url" := JStr "https://b.example"]}
           :: [JObj {["friendly_name" := JStr "web"]}]))
  = Raise (KeyError "friendly_name").
Proof.
  refine (proj1 (index_first_malformed_record
    [JObj {["friendly_name" := JStr "api"]}]
    (JObj {["url" := JStr "https://b.example"]})
    [JObj {["friendly_name" := JStr "web"]}] _)
    {["url" := JStr "https://b.example"]} _ _).
  - repeat constructor. exists (KStr "api"). reflexivity.
  - reflexivity.
  - reflexivity.
Defined.









(** ** The event log *)

(** X13: no partial table.  When some log entry makes its row raise
    ([KeyError], [TypeError] or [AttributeError], see X14) and the entries
    before it are well formed, the section raises that exception after the
    heading and draws no table, whatever follows. *)
Theorem log_table_all_or_nothing (utcoffset : Z -> Z) (monitor : record)
    (good : list json) (bad : json) (rest : list json) (e : exn) :
  Forall (fun log => exists entry code t,
            log = JObj entry /\ well_formed_log utcoffset entry code t /\
            fromtimestamp_converts utcoffset t = true) good ->
  processed_log utcoffset bad = Raise e ->
  monitor !! "logs" = Some (JArr (good ++ bad :: rest)) ->
  processed_logs utcoffset (JArr (good ++ bad :: rest)) = Raise e /\
  events_section utcoffset monitor = UI [st_subheader [Text "Recent Events"]] (Raise e).
Proof.
  intros Hgood Hbad Hlogs.
  assert (processed_logs utcoffset (JArr (good ++ bad :: rest)) = Raise e) as Hrun.
  { unfold processed_logs. cbn [iterate]. rewrite bind_Return.
    apply for_each_first_failure; [|exact Hbad].
    eapply Forall_impl; [exact Hgood|].
    intros log (entry & code & t & -> & Hwf & Hconv).
    destruct (processed_log_row _ _ _ _ Hwf Hconv) as (row & Hrow & _). eauto. }
  split; [exact Hrun|].
  unfold events_section. rewrite Hlogs.
  assert (truthy (JArr (good ++ bad :: rest)) = true) as -> by (destruct good; reflexivity).
  rewrite Hrun. reflexivity.
Qed.

Lemma log_table_all_or_nothing_witness :
  events_section (fun _ => 0)
    {["logs" := JArr ([JObj {["type" := JNum 2; "datetime" := JNum 1700000000]}]
                      ++ JObj {["type" := JNum 9]} :: [])]}
  = UI [st_subheader [Text "Recent Events"]] (Raise (KeyError "datetime")).
Proof.
  refine (proj2 (log_table_all_or_nothing (fun _ => 0)
    {["logs" := JArr ([JObj {["type" := JNum 2; "datetime" := JNum 1700000000]}]
                      ++ JObj {["type" := JNum 9]} :: [])]}
    [JObj {["type" := JNum 2; "datetime" := JNum 1700000000]}]
    (JObj {["type" := JNum 9]}) [] (KeyError "datetime") _ _ _)).
  - repeat constructor.
    exists {["type" := JNum 2; "datetime" := JNum 1700000000]}, 2, 1700000000.
    split; [reflexivity|]. split; [|reflexivity].
    split; [reflexivity|]. split; [reflexivity|].
    split; [vm_compute; split; discriminate|].
    intros v Hv. vm_compute in Hv. discriminate.
  - reflexivity.
  - reflexivity.
Defined.

(** X14: what makes the row of a log entry raise.  An entry that is not a
    dict raises [TypeError]; a dict without [type] raises [KeyError] for
    it; with an integer [type] but without [datetime] it raises [KeyError]
    for that; with a [datetime] that is a string or [null] it raises
    [TypeError]; and when the time is converted and written (its local
    year has four digits) but [reason] is present and is not a dict (for
    instance [null]), it raises [AttributeError]. *)
Theorem malformed_log_entry (utcoffset : Z -> Z) (log : json) :
  ((forall entry : record, log <> JObj entry) ->
   processed_log utcoffset log = Raise TypeError) /\
  (forall entry : record, log = JObj entry ->
     (entry !! "type" = None ->
      processed_log utcoffset log = Raise (KeyError "type")) /\
     (forall code : Z, entry !! "type" = Some (JNum code) ->
        (entry !! "datetime" = None ->
         processed_log utcoffset log = Raise (KeyError "datetime")) /\
        (forall when : json, entry !! "datetime" = Some when ->
           when = JNull \/ (exists s, when = JStr s) ->
           processed_log utcoffset log = Raise TypeError) /\
        (forall (t : Z) (reason : json),
           entry !! "datetime" = Some (JNum t) ->
           fromtimestamp_converts utcoffset t = true ->
           1000 <= year (localtime utcoffset t) <= 9999 ->
           entry !! "reason" = Some reason ->
           (forall r : record, reason <> JObj r) ->
           processed_log utcoffset log = Raise AttributeError))).
Proof.
  split.
  - intros Hlog. destruct log as [| | | | |entry]; try reflexivity.
    exfalso. exact (Hlog entry eq_refl).
  - intros entry ->. split.
    + intros Htype. unfold processed_log, log_status, subscript.
      rewrite Htype. reflexivity.
    + intros code Htype.
      assert (processed_log utcoffset (JObj entry) =
                (when ← subscript (JObj entry) "datetime";
                 d ← fromtimestamp utcoffset when;
                 text ← strftime d;
                 details ← log_details (JObj entry);
                 Return (LogRow ((status_enumeration code ("Event", "ℹ️")).2 +:+ " "
                                 +:+ (status_enumeration code ("Event", "ℹ️")).1)
                                text details))) as ->.
      { unfold processed_log.
        assert (log_status (JObj entry)
                = Return (status_enumeration code ("Event", "ℹ️"))) as ->.
        { unfold log_status, subscript. rewrite Htype. apply STATUS_MAP_get. }
        rewrite bind_Return. reflexivity. }
      unfold subscript. split; [|split].
      * intros Hdt. rewrite Hdt. reflexivity.
      * intros when Hdt [->|[s ->]]; rewrite Hdt; reflexivity.
      * intros t reason Hdt Hconv Hyear Hreason Hnot. rewrite Hdt, bind_Return.
        rewrite (fromtimestamp_Return _ _ Hconv), bind_Return.
        destruct (strptime_strftime (localtime utcoffset t) Hyear
                    (datetime_of_seconds_range _)) as (text & -> & _).
        rewrite bind_Return.
        unfold log_details, get_method. rewrite Hreason. cbn [default].
        rewrite bind_Return.
        destruct reason as [| | | | |r]; try reflexivity.
        exfalso. exact (Hnot r eq_refl).
Qed.

Lemma malformed_log_entry_witness :
  processed_log (fun _ => 0)
    (JObj {["type" := JNum 9; "datetime" := JNum 1700000000; "reason" := JNull]})
  = Raise AttributeError.
Proof.
  refine (proj2 (proj2 (proj2 (proj2 (malformed_log_entry (fun _ => 0)
    (JObj {["type" := JNum 9; "datetime" := JNum 1700000000; "reason" := JNull]}))
    {["type" := JNum 9; "datetime" := JNum 1700000000; "reason" := JNull]} eq_refl)
    9 _)) 1700000000 JNull _ _ _ _ _).
  - reflexivity.
  - reflexivity.
  - reflexivity.
  - vm_compute. split; discriminate.
  - reflexivity.
  - discriminate.
Defined.

(** A row is returned only for a time that [datetime] converts, and its
    timestamp then reads back as the local time. *)
Lemma processed_log_Return_inv (utcoffset : Z -> Z) (entry : record) (code t : Z)
    (row : log_row) :
  well_formed_log utcoffset entry code t ->
  processed_log utcoffset (JObj entry) = Return row ->
  strptime (Timestamp row) = Some (localtime utcoffset t).
Proof.
  intros Hwf Hrow.
  destruct (fromtimestamp_converts utcoffset t) eqn:Hconv.
  - destruct (processed_log_text _ _ _ _ Hwf Hconv) as (text & _ & Hread & Hrow').
    rewrite Hrow' in Hrow. injection Hrow as <-. exact Hread.
  - exfalso. destruct Hwf as (Htype & Hdt & _ & _).
    unfold processed_log in Hrow.
    assert (log_status (JObj entry) = Return (status_enumeration code ("Event", "ℹ️")))
      as Hstatus.
    { unfold log_status, subscript. rewrite Htype. apply STATUS_MAP_get. }
    rewrite Hstatus, bind_Return in Hrow. unfold subscript in Hrow.
    rewrite Hdt, bind_Return in Hrow. unfold fromtimestamp in Hrow.
    rewrite Hconv in Hrow. discriminate.
Qed.

(** X15: the timestamp texts tell the local times apart.  Two well-formed
    log entries whose rows show the same timestamp have the same local
    time, to the second. *)
Theorem timestamp_text_injective (utcoffset : Z -> Z) (entry1 entry2 : record)
    (code1 code2 t1 t2 : Z) (row1 row2 : log_row) :
  well_formed_log utcoffset entry1 code1 t1 ->
  well_formed_log utcoffset entry2 code2 t2 ->
  processed_log utcoffset (JObj entry1) = Return row1 ->
  processed_log utcoffset (JObj entry2) = Return row2 ->
  Timestamp row1 = Timestamp row2 ->
  t1 + utcoffset t1 = t2 + utcoffset t2.
Proof.
  intros Hwf1 Hwf2 Hrow1 Hrow2 Hsame.
  pose proof (processed_log_Return_inv _ _ _ _ _ Hwf1 Hrow1) as Hread1.
  pose proof (processed_log_Return_inv _ _ _ _ _ Hwf2 Hrow2) as Hread2.
  rewrite Hsame, Hread2 in Hread1.
  assert (localtime utcoffset t2 = localtime utcoffset t1) as Heq by congruence.
  unfold localtime in Heq.
  rewrite <- (seconds_of_datetime_of_seconds (t1 + utcoffset t1)).
  rewrite <- (seconds_of_datetime_of_seconds (t2 + utcoffset t2)).
  rewrite Heq. reflexivity.
Qed.

Lemma timestamp_text_injective_witness :
  1699999000 + (if 1699999000 <? 1700000000 then 3600 else 0)
  = 1700002600 + (if 1700002600 <? 1700000000 then 3600 else 0).
Proof.
  apply (timestamp_text_injective (fun t => if t <? 1700000000 then 3600 else 0)
    {["type" := JNum 9; "datetime" := JNum 1699999000]}
    {["type" := JNum 2; "datetime" := JNum 1700002600]}
    9 2 1699999000 1700002600
    (LogRow "🔥 Down" "2023-11-14 22:56:40" (JStr "N/A"))
    (LogRow "✅ Up" "2023-11-14 22:56:40" (JStr "N/A"))).
  - split; [reflexivity|]. split; [reflexivity|].
    split; [vm_compute; split; discriminate|].
    intros v Hv. vm_compute in Hv. discriminate.
  - split; [reflexivity|]. split; [reflexivity|].
    split; [vm_compute; split; discriminate|].
    intros v Hv. vm_compute in Hv. discriminate.
  - vm_compute. reflexivity.
  - vm_compute. reflexivity.
  - reflexivity.
Defined.

(** ** The response-time chart *)

(** X16: the chart needs the key [datetime].  When the list is not empty
    and no entry has that key, [df_rt['datetime']] raises [KeyError]; the
    section raises it after the heading and draws no chart. *)
Theorem chart_without_datetime_raises (monitor : record) (entries : list record) :
  entries <> [] ->
  Forall (fun e : record => e !! "datetime" = None) entries ->
  monitor !! "response_times" = Some (JArr (JObj <$> entries)) ->
  df_rt (JArr (JObj <$> entries)) = Raise (KeyError "datetime") /\
  response_time_section monitor =
    UI [st_subheader [Text "Recent Response Times (ms)"]] (Raise (KeyError "datetime")).
Proof.
  intros Hne Hnone Hfield.
  assert (df_rt (JArr (JObj <$> entries)) = Raise (KeyError "datetime")) as Hrun.
  { unfold df_rt, pd_DataFrame. rewrite for_each_as_dict, !bind_Return.
    unfold df_getitem. rewrite bool_decide_eq_false_2; [reflexivity|].
    intros (e & He & [v Hv])%elem_of_columns.
    rewrite Forall_forall in Hnone. rewrite (Hnone e He) in Hv. discriminate. }
  split; [exact Hrun|].
  unfold response_time_section. rewrite Hfield.
  destruct entries as [|e entries]; [contradiction|].
  rewrite fmap_cons. cbn [truthy]. rewrite <- fmap_cons, Hrun. reflexivity.
Qed.

Lemma chart_without_datetime_raises_witness :
  response_time_section
    {["response_times" := JArr (JObj <$> [{["timestamp" := JNum 1700000000; "value" := JNum 120]}])]}
  = UI [st_subheader [Text "Recent Response Times (ms)"]] (Raise (KeyError "datetime")).
Proof.
  refine (proj2 (chart_without_datetime_raises
    {["response_times" := JArr (JObj <$> [{["timestamp" := JNum 1700000000; "value" := JNum 120]}])]}
    [{["timestamp" := JNum 1700000000; "value" := JNum 120]}] _ _ _)).
  - discriminate.
  - repeat constructor.
  - reflexivity.
Defined.

(** ** The page of a monitor *)

Lemma response_time_section_no_data (monitor : record) :
  (forall v, monitor !! "response_times" = Some v -> truthy v = false) ->
  response_time_section monitor =
    UI [st_subheader [Text "Recent Response Times (ms)"];
        st_info [Text "No response time data available for this monitor."]] (Return tt).
Proof.
  intros H. unfold response_time_section.
  destruct (monitor !! "response_times") as [v|]; [|reflexivity].
  rewrite (H v eq_refl). reflexivity.
Qed.

Lemma events_section_no_data (utcoffset : Z -> Z) (monitor : record) :
  (forall v, monitor !! "logs" = Some v -> truthy v = false) ->
  events_section utcoffset monitor =
    UI [st_subheader [Text "Recent Events"];
        st_info [Text "No logs available for this monitor."]] (Return tt).
Proof.
  intros H. unfold events_section.
  destruct (monitor !! "logs") as [v|]; [|reflexivity].
  rewrite (H v eq_refl). reflexivity.
Qed.

(** X18: the whole page of a monitor that has no history.  With a name,
    a URL, a status that translates and an uptime field that splits, and
    with [response_times] and [logs] absent or empty, the page is drawn to
    the end: heading, URL, the three indicators, the two messages that
    there is no data, and the raw record. *)
Theorem page_without_history (utcoffset : Z -> Z) (monitor : record)
    (name address : json) (status uptime : string * string) :
  monitor !! "friendly_name" = Some name ->
  monitor !! "url" = Some address ->
  monitor_status monitor = Return status ->
  uptime_kpis monitor = Return uptime ->
  (forall v, monitor !! "response_times" = Some v -> truthy v = false) ->
  (forall v, monitor !! "logs" = Some v -> truthy v = false) ->
  render_monitor utcoffset monitor =
    UI [st_header [Text "Monitor: "; Str name];
        st_markdown [Text "**URL:** `"; Str address; Text "`"];
        st_metric "Current Status" [Text status.2; Text " "; Text status.1];
        st_metric "7-Day Uptime" [Text uptime.1; Text "%"];
        st_metric "30-Day Uptime" [Text uptime.2; Text "%"];
        st_divider;
        st_subheader [Text "Recent Response Times (ms)"];
        st_info [Text "No response time data available for this monitor."];
        st_subheader [Text "Recent Events"];
        st_info [Text "No logs available for this monitor."];
        st_json (JObj monitor)]
       (Return tt).
Proof.
  intros Hname Hurl Hstatus Huptime Hrt Hlogs.
  unfold render_monitor, getitem.
  rewrite Hname, Hurl, Hstatus, Huptime.
  rewrite (response_time_section_no_data _ Hrt), (events_section_no_data _ _ Hlogs).
  reflexivity.
Qed.

Lemma page_without_history_witness :
  result (render_monitor (fun _ => 0)
    {["friendly_name" := JStr "api"; "url" := JStr "https://a.example"; "status" := JNum 2]})
  = Return tt.
Proof.
  rewrite (page_without_history (fun _ => 0)
    {["friendly_name" := JStr "api"; "url" := JStr "https://a.example"; "status" := JNum 2]}
    (JStr "api") (JStr "https://a.example") ("Up", "✅") ("0", "0")).
  - reflexivity.
  - reflexivity.
  - reflexivity.
  - reflexivity.
  - reflexivity.
  - intros v Hv. vm_compute in Hv. discriminate.
  - intros v Hv. vm_compute in Hv. discriminate.
Defined.

(** X19: the fields the page cannot do without.  A record without
    [friendly_name] raises [KeyError] before anything is drawn; with a
    name but without [url] the heading is drawn and then [KeyError] is
    raised; with both but without [status] the heading and the URL are
    drawn and then [KeyError] is raised. *)
Theorem page_required_fields (utcoffset : Z -> Z) (monitor : record) :
  (monitor !! "friendly_name" = None ->
   render_monitor utcoffset monitor = UI [] (Raise (KeyError "friendly_name"))) /\
  (forall name : json,
     monitor !! "friendly_name" = Some name ->
     (monitor !! "url" = None ->
      render_monitor utcoffset monitor =
        UI [st_header [Text "Monitor: "; Str name]] (Raise (KeyError "url"))) /\
     (forall address : json,
        monitor !! "url" = Some address -> monitor !! "status" = None ->
        render_monitor utcoffset monitor =
          UI [st_header [Text "Monitor: "; Str name];
              st_markdown [Text "**URL:** `"; Str address; Text "`"]]
             (Raise (KeyError "status")))).
Proof.
  split.
  - intros Hname. unfold render_monitor, getitem. rewrite Hname. reflexivity.
  - intros name Hname. split.
    + intros Hurl. unfold render_monitor, getitem. rewrite Hname, Hurl. reflexivity.
    + intros address Hurl Hstatus.
      unfold render_monitor, monitor_status, getitem.
      rewrite Hname, Hurl, Hstatus. reflexivity.
Qed.

Lemma page_required_fields_witness :
  render_monitor (fun _ => 0) {["friendly_name" := JStr "api"; "status" := JNum 2]}
  = UI [st_header [Text "Monitor: "; Str (JStr "api")]] (Raise (KeyError "url")).
Proof.
  refine (proj1 (proj2 (page_required_fields (fun _ => 0)
    {["friendly_name" := JStr "api"; "status" := JNum 2]}) (JStr "api") _) _).
  - reflexivity.
  - reflexivity.
Defined.

(** ** The top of the script and the selection *)

(** X20: how the top of the script ends when the key is set, besides the
    warning for an empty index.  The world after it is the world after the
    fetch.  When the fetch returns and the index is not empty, the index
    is handed on and nothing but the title and the messages of the fetch
    is shown; when the index raises (a record without a name, say), or the
    fetch raises, the script ends in that exception: no warning. *)
Theorem script_top_outcomes (json_errors_caught : bool)
    (server : nat -> request -> post_result) (environ : gmap string string)
    (now : Z) (w : world) (API_KEY : string) :
  environ !! "UPTIMEROBOT_API_KEY" = Some API_KEY -> API_KEY <> "" ->
  let called := fetch_uptimerobot_data json_errors_caught server now API_KEY w in
  let top := script_top json_errors_caught server environ now w in
  top.1 = called.1 /\
  (forall (v : json) (d : gmap pykey json),
     result called.2 = Return v -> process_monitor_data v = Return d -> d <> ∅ ->
     top.2 = UI (st_set_page_config
                 :: st_title [Text "🤖 UptimeRobot Monitor Dashboard"]
                 :: calls called.2) (Return d)) /\
  (forall (v : json) (e : exn),
     result called.2 = Return v -> process_monitor_data v = Raise e ->
     top.2 = UI (st_set_page_config
                 :: st_title [Text "🤖 UptimeRobot Monitor Dashboard"]
                 :: calls called.2) (Raise e)) /\
  (forall e : exn,
     result called.2 = Raise e ->
     top.2 = UI (st_set_page_config
                 :: st_title [Text "🤖 UptimeRobot Monitor Dashboard"]
                 :: calls called.2) (Raise e)).
Proof.
  intros Henv Hkey called top. subst called top.
  unfold script_top. rewrite Henv. simpl.
  destruct (String.eqb_spec API_KEY "") as [|_]; [contradiction|]. simpl.
  destruct (fetch_uptimerobot_data json_errors_caught server now API_KEY w)
    as [w' fetched].
  simpl. split; [reflexivity|].
  unfold mbind, ui_bind. simpl.
  split; [|split].
  - intros v d Hv Hd Hne. rewrite Hv. simpl. rewrite Hd. simpl.
    rewrite (bool_decide_eq_false_2 _ Hne). simpl.
    rewrite !app_nil_r. reflexivity.
  - intros v e Hv He. rewrite Hv. simpl. rewrite He. simpl.
    rewrite !app_nil_r. reflexivity.
  - intros e He. rewrite He. reflexivity.
Qed.

Lemma script_top_outcomes_witness :
  result (script_top true
    (fun _ _ => Responded 200
       (Some (JObj {["stat" := JStr "ok";
                     "monitors" := JArr [JObj {["url" := JStr "https://a.example"]}]]})))
    {["UPTIMEROBOT_API_KEY" := "u123-abc"]} 0 (World ∅ [])).2
  = Raise (KeyError "friendly_name").
Proof.
  pose proof (script_top_outcomes true
    (fun _ _ => Responded 200
       (Some (JObj {["stat" := JStr "ok";
                     "monitors" := JArr [JObj {["url" := JStr "https://a.example"]}]]})))
    {["UPTIMEROBOT_API_KEY" := "u123-abc"]} 0 (World ∅ []) "u123-abc") as H.
  destruct H as (_ & _ & Hraise & _).
  - reflexivity.
  - discriminate.
  - rewrite (Hraise (JArr [JObj {["url" := JStr "https://a.example"]}])
                    (KeyError "friendly_name")).
    + reflexivity.
    + vm_compute. reflexivity.
    + reflexivity.
Defined.



Lemma render_monitor_begins (utcoffset : Z -> Z) (monitor : record) (name : json) :
  monitor !! "friendly_name" = Some name ->
  exists more : list st_call,
    calls (render_monitor utcoffset monitor)
      = st_header [Text "Monitor: "; Str name] :: more.
Proof.
  intros Hname. unfold render_monitor, getitem. rewrite Hname.
  eexists. reflexivity.
Qed.

(** X22: a name taken from the index always finds its monitor.  When the
    index was built by the function and the selected name is one of its
    keys and is truthy, line 102 does not raise: the page drawn is the page
    of the dict stored under the name, and it begins with the heading that
    shows this dict's own [friendly_name], whose key is the selected
    name. *)
Theorem selected_name_finds_its_monitor (utcoffset : Z -> Z) (monitors : json)
    (d : gmap pykey json) (selected : pykey) :
  process_monitor_data monitors = Return d ->
  is_Some (d !! selected) -> key_truthy selected = true ->
  exists (monitor : record) (name : json) (more : list st_call),
    d !! selected = Some (JObj monitor) /\
    monitor !! "friendly_name" = Some name /\ hash_key name = Return selected /\
    dashboard_area utcoffset d selected = render_monitor utcoffset monitor /\
    calls (dashboard_area utcoffset d selected)
      = st_header [Text "Monitor: "; Str name] :: more.
Proof.
  intros Hrun [m Hm] Htruthy.
  destruct (index_entry_of_lookup monitors d selected m Hrun Hm)
    as (o & name & -> & Hname & Hhash).
  destruct (render_monitor_begins utcoffset o name Hname) as [more Hmore].
  exists o, name, more. split; [exact Hm|]. split; [exact Hname|].
  split; [exact Hhash|].
  unfold dashboard_area. rewrite Htruthy, Hm. split; [reflexivity|exact Hmore].
Qed.

Lemma selected_name_finds_its_monitor_witness :
  exists (monitor : record) (name : json) (more : list st_call),
    ({[KStr "api" := JObj {["friendly_name" := JStr "api"; "status" := JNum 2]}]}
       : gmap pykey json) !! KStr "api" = Some (JObj monitor) /\
    monitor !! "friendly_name" = Some name /\ hash_key name = Return (KStr "api") /\
    dashboard_area (fun _ => 0)
      {[KStr "api" := JObj {["friendly_name" := JStr "api"; "status" := JNum 2]}]}
      (KStr "api") = render_monitor (fun _ => 0) monitor /\
    calls (dashboard_area (fun _ => 0)
      {[KStr "api" := JObj {["friendly_name" := JStr "api"; "status" := JNum 2]}]}
      (KStr "api")) = st_header [Text "Monitor: "; Str name] :: more.
Proof.
  apply (selected_name_finds_its_monitor (fun _ => 0)
    (JArr [JObj {["friendly_name" := JStr "api"; "status" := JNum 2]}])).
  - vm_compute. reflexivity.
  - eexists. reflexivity.
  - reflexivity.
Defined.
